(** * cafe-menu: the Menu REST handlers of [src/index.js]

    A shallow embedding of the four Express handlers
    ([app.post('/menu')], [app.get('/menu')], [app.put('/menu/:id')],
    [app.delete('/menu/:id')]) over a model of the Cloud Spanner client
    calls they make ([database.runTransactionAsync], [transaction.runUpdate],
    [transaction.commit], [database.run]).

    The handlers are translated statement by statement.  The store is an
    external collaborator: its three SQL statements and two queries are
    given the semantics of the SQL text in the source, and every client
    call may reject, as decided by the environment record [Env].  A
    transaction's statement takes effect at its commit and not before; the
    client's own retry of aborted transactions is left out, so that each
    request makes each call at most once.

    The settings read from the process environment at start-up
    ([projectId], [instanceId], [databaseId], [PORT]) are modelled too. *)

From stdpp Require Import base option list strings gmap sorting.
From Stdlib Require Import ZArith.

Local Open Scope string_scope.
Local Open Scope list_scope.
Local Open Scope Z_scope.

Local Set Warnings "-register-all".

(** ** JavaScript values *)

(** The values that flow through the handlers: what [express.json()] can
    put in [req.body] (null, booleans, numbers, strings, arrays, objects),
    [undefined] for an absent property, [NaN], and the timestamp objects
    of the store's [CreatedAt] column.  Numbers are carried unchanged
    from request to store to response; the handlers only test them
    against zero and null, so a number is an integer here. *)
Inductive jsval : Type :=
  | JUndefined
  | JNull
  | JBool (b : bool)
  | JNum (n : Z)
  | JNaN
  | JStr (s : string)
  | JDate (t : Z)
  | JArr (l : list jsval)
  | JObj (fields : list (string * jsval)).

(** [!!v] of JavaScript: the falsy values are [undefined], [null],
    [false], [0], [NaN] and the empty string. *)
Definition truthy (v : jsval) : bool :=
  match v with
  | JUndefined | JNull | JNaN => false
  | JBool b => b
  | JNum n => negb (Z.eqb n 0)
  | JStr s => negb (String.eqb s "")
  | JDate _ | JArr _ | JObj _ => true
  end.

(** [v == null] of JavaScript: true for [null] and [undefined] only. *)
Definition loose_eq_null (v : jsval) : bool :=
  match v with
  | JUndefined | JNull => true
  | _ => false
  end.

(** Property read [o.k] on a parsed JSON object: [undefined] when absent. *)
Definition prop (o : gmap string jsval) (k : string) : jsval :=
  default JUndefined (o !! k).

(** ** The store *)

(** A row of table [Menu], with the column names of the SQL text. *)
Record Row : Type := mkRow {
  MenuId : string;
  Name : jsval;
  Description : jsval;
  Price : jsval;
  Available : jsval;
  CreatedAt : Z
}.

(** The three DML statements of the source, with their parameters. *)
Inductive Dml : Type :=
  | InsertMenu (menuId : string) (name description price available : jsval)
  | UpdateMenu (id : string) (name description price available : jsval)
  | DeleteMenu (id : string).

(** The two queries of the source. *)
Inductive Query : Type :=
  | SelectAllOrderByCreatedAtDesc
  | SelectByMenuId (id : string).

(** [UPDATE Menu SET Name = @name, Description = @description,
    Price = @price, Available = @available] on one row. *)
Definition set_mutable (name description price available : jsval) (r : Row) : Row :=
  {| MenuId := MenuId r;
     Name := name;
     Description := description;
     Price := price;
     Available := available;
     CreatedAt := CreatedAt r |}.

(** Effect of a statement on the table when its transaction commits at
    timestamp [ts] ([PENDING_COMMIT_TIMESTAMP()] evaluates to [ts]). *)
Definition exec_dml (ts : Z) (q : Dml) (rows : list Row) : list Row :=
  match q with
  | InsertMenu menuId name description price available =>
      rows ++ [mkRow menuId name description price available ts]
  | UpdateMenu id name description price available =>
      (λ r, if decide (MenuId r = id)
            then set_mutable name description price available r
            else r) <$> rows
  | DeleteMenu id =>
      filter (λ r, MenuId r ≠ id) rows
  end.

(** [ORDER BY CreatedAt DESC]: [r1] may precede [r2]. *)
Definition newer_first (r1 r2 : Row) : Prop := CreatedAt r2 ≤ CreatedAt r1.

Global Instance newer_first_dec r1 r2 : Decision (newer_first r1 r2) :=
  decide (CreatedAt r2 ≤ CreatedAt r1).

Definition exec_query (q : Query) (rows : list Row) : list Row :=
  match q with
  | SelectAllOrderByCreatedAtDesc => merge_sort newer_first rows
  | SelectByMenuId id => filter (λ r, MenuId r = id) rows
  end.

(** What the handlers do to the store, in order. *)
Inductive Event : Type :=
  | EvRunTransaction
  | EvRunUpdate (q : Dml)
  | EvCommit
  | EvRun (q : Query).

(** The store as the handlers see it: the committed table, the statements
    buffered by the open transaction (if any), and the calls made so far. *)
Record World : Type := mkWorld {
  Menu : list Row;
  txn : option (list Dml);
  log : list Event
}.

(** What the environment decides during one request: the identifier
    [uuidv4()] returns, the string [new Date().toISOString()] returns, the
    commit timestamp the store assigns, and for each client call whether
    it rejects, and with which error message. *)
Record Env : Type := mkEnv {
  uuid : string;
  now_iso : string;
  commit_ts : Z;
  begin_fails : option string;
  run_update_fails : option string;
  commit_fails : option string;
  run_fails : option string
}.

(** ** Asynchronous code with exceptions *)

(** A JavaScript [Error]; the handlers read its [message]. *)
Record Error : Type := mkError { message : string }.

Inductive outcome (A : Type) : Type :=
  | Returned (a : A)
  | Thrown (e : Error).
Arguments Returned {A} a.
Arguments Thrown {A} e.

Definition M (A : Type) : Type := Env → World → outcome A * World.

Global Instance M_ret : MRet M := λ A a _ w, (Returned a, w).
Global Instance M_bind : MBind M := λ A B f m env w,
  match m env w with
  | (Returned a, w') => f a env w'
  | (Thrown e, w') => (Thrown e, w')
  end.

(** [throw error] and [throw new Error(msg)] *)
Definition rethrow {A} (error : Error) : M A := λ _ w, (Thrown error, w).
Definition throw {A} (msg : string) : M A := rethrow (mkError msg).

(** [try { m } catch (error) { h error }] *)
Definition try_catch {A} (m : M A) (h : Error → M A) : M A := λ env w,
  match m env w with
  | (Returned a, w') => (Returned a, w')
  | (Thrown e, w') => h e env w'
  end.

Definition ask : M Env := λ env w, (Returned env, w).
Definition get : M World := λ _ w, (Returned w, w).
Definition put (w : World) : M unit := λ _ _, (Returned tt, w).

Definition record (ev : Event) : M unit :=
  w ← get; put (mkWorld (Menu w) (txn w) (log w ++ [ev])).

(** A client call that rejects when the environment says so. *)
Definition may_reject (fails : Env → option string) : M unit :=
  env ← ask;
  match fails env with
  | Some msg => throw msg
  | None => mret tt
  end.

(** ** The Spanner client calls *)

(** [transaction.runUpdate(query)]: the statement is buffered in the open
    transaction; nothing is visible in the table before the commit. *)
Definition runUpdate (q : Dml) : M unit :=
  record (EvRunUpdate q);;
  may_reject run_update_fails;;
  w ← get;
  match txn w with
  | Some pending => put (mkWorld (Menu w) (Some (pending ++ [q])) (log w))
  | None => throw "Transaction has already ended"
  end.

(** [transaction.commit()]: the buffered statements take effect together,
    at the commit timestamp; a rejected commit applies none of them. *)
Definition commit : M unit :=
  record EvCommit;;
  may_reject commit_fails;;
  env ← ask;
  w ← get;
  match txn w with
  | Some pending =>
      put (mkWorld (foldl (λ rows q, exec_dml (commit_ts env) q rows) (Menu w) pending)
                   None (log w))
  | None => throw "Transaction has already ended"
  end.

(** [database.runTransactionAsync(callback)]: opens a transaction and runs
    the callback on it; when the callback throws, the transaction is
    dropped with whatever it buffered and the error is rethrown. *)
Definition runTransactionAsync (callback : M unit) : M unit :=
  record EvRunTransaction;;
  may_reject begin_fails;;
  w ← get;
  put (mkWorld (Menu w) (Some []) (log w));;
  try_catch callback
    (λ error, w ← get; put (mkWorld (Menu w) None (log w));; rethrow error);;
  w ← get;
  put (mkWorld (Menu w) None (log w)).

(** [const [rows] = await database.run(query)] *)
Definition run (q : Query) : M (list Row) :=
  record (EvRun q);;
  may_reject run_fails;;
  w ← get;
  mret (exec_query q (Menu w)).

(** ** The handlers *)

(** What a handler reads of [req]: [req.params.id] and [req.body], the
    object [express.json()] parsed (empty when the request has none). *)
Record Request : Type := mkRequest {
  params_id : string;
  body : gmap string jsval
}.

(** What a handler sends: [res.status(status).json(json)]. *)
Record Response : Type := mkResponse {
  status : Z;
  json : jsval
}.

(** [uuidv4()] and [new Date().toISOString()] *)
Definition uuidv4 : M string := env ← ask; mret (uuid env).
Definition Date_toISOString : M string := env ← ask; mret (now_iso env).

(** The object literal built from a row ([row.toJSON()] then the renaming). *)
Definition item_of_row (item : Row) : jsval :=
  JObj [("menuId", JStr (MenuId item));
        ("name", Name item);
        ("description", Description item);
        ("price", Price item);
        ("available", Available item);
        ("createdAt", JDate (CreatedAt item))].

(** The test of lines 30 and 94. *)
Definition invalid_input (name description price available : jsval) : bool :=
  negb (truthy name) || negb (truthy description)
  || loose_eq_null price || loose_eq_null available.

(** [app.post('/menu', ...)] *)
Definition post_menu (req : Request) : M Response :=
  let name := prop (body req) "name" in
  let description := prop (body req) "description" in
  let price := prop (body req) "price" in
  let available := prop (body req) "available" in
  menuId ← uuidv4;
  if invalid_input name description price available then
    mret (mkResponse 400 (JObj [("error", JStr "Invalid input data")]))
  else
    try_catch
      (runTransactionAsync
         (runUpdate (InsertMenu menuId name description price available);;
          commit);;
       createdAt ← Date_toISOString;
       let newMenuItem :=
         JObj [("menuId", JStr menuId);
               ("name", name);
               ("description", description);
               ("price", price);
               ("available", available);
               ("createdAt", JStr createdAt)] in
       mret (mkResponse 201 newMenuItem))
      (λ error,
         mret (mkResponse 500 (JObj [("error", JStr "Failed to create menu item");
                                     ("details", JStr (message error))]))).

(** [app.get('/menu', ...)] *)
Definition get_menu (req : Request) : M Response :=
  try_catch
    (rows ← run SelectAllOrderByCreatedAtDesc;
     let data := item_of_row <$> rows in
     mret (mkResponse 200 (JArr data)))
    (λ error,
       mret (mkResponse 500 (JObj [("error", JStr "Failed to fetch menu items");
                                   ("details", JStr (message error))]))).

(** [app.put('/menu/:id', ...)] *)
Definition put_menu (req : Request) : M Response :=
  let id := params_id req in
  let name := prop (body req) "name" in
  let description := prop (body req) "description" in
  let price := prop (body req) "price" in
  let available := prop (body req) "available" in
  if invalid_input name description price available then
    mret (mkResponse 400 (JObj [("error", JStr "Invalid input data")]))
  else
    try_catch
      (runTransactionAsync
         (runUpdate (UpdateMenu id name description price available);;
          commit);;
       rows ← run (SelectByMenuId id);
       match rows with
       | [] => mret (mkResponse 404 (JObj [("error", JStr "Menu item not found")]))
       | item :: _ => mret (mkResponse 200 (item_of_row item))
       end)
      (λ error,
         mret (mkResponse 500 (JObj [("error", JStr "Failed to update menu item");
                                     ("details", JStr (message error))]))).

(** [app.delete('/menu/:id', ...)] *)
Definition delete_menu (req : Request) : M Response :=
  let id := params_id req in
  try_catch
    (runTransactionAsync (runUpdate (DeleteMenu id);; commit);;
     mret (mkResponse 200 (JObj [("success", JBool true)])))
    (λ error,
       mret (mkResponse 500 (JObj [("error", JStr "Failed to delete menu item");
                                   ("details", JStr (message error))]))).

(** The routes registered on [app]. *)
Inductive Route : Type := POST_menu | GET_menu | PUT_menu_id | DELETE_menu_id.

Definition handle (route : Route) : Request → M Response :=
  match route with
  | POST_menu => post_menu
  | GET_menu => get_menu
  | PUT_menu_id => put_menu
  | DELETE_menu_id => delete_menu
  end.

(** ** Configuration *)




(** ** Vocabulary of the specification *)

(** The four required fields of a create or update body. *)
Definition required_fields : list string :=
  ["name"; "description"; "price"; "available"].

(** Field [k] of the body is absent, or present with value [null]. *)
Definition missing_or_null (b : gmap string jsval) (k : string) : Prop :=
  b !! k = None ∨ b !! k = Some JNull.

(** The falsy values of JavaScript, listed. *)
Definition falsy_values : list jsval :=
  [JUndefined; JNull; JBool false; JNum 0; JNaN; JStr ""].

(** The body passes the test of lines 30 and 94. *)
Definition valid_body (b : gmap string jsval) : Prop :=
  invalid_input (prop b "name") (prop b "description")
                (prop b "price") (prop b "available") = false.

(** The error of the write transaction, if one of its three client calls
    rejects: the first of [runTransactionAsync], [runUpdate], [commit]. *)
Definition txn_error (env : Env) : option string :=
  match begin_fails env with
  | Some msg => Some msg
  | None =>
      match run_update_fails env with
      | Some msg => Some msg
      | None => commit_fails env
      end
  end.

(** The first store failure a route meets, if any. *)
Definition store_error (route : Route) (env : Env) : option string :=
  match route with
  | GET_menu => run_fails env
  | POST_menu | DELETE_menu_id => txn_error env
  | PUT_menu_id =>
      match txn_error env with
      | Some msg => Some msg
      | None => run_fails env
      end
  end.

(** The request gets past validation on this route. *)
Definition accepted (route : Route) (req : Request) : Prop :=
  match route with
  | POST_menu | PUT_menu_id => valid_body (body req)
  | GET_menu | DELETE_menu_id => True
  end.

(** The [error] summary of each route's catch block. *)
Definition failure_summary (route : Route) : string :=
  match route with
  | POST_menu => "Failed to create menu item"
  | GET_menu => "Failed to fetch menu items"
  | PUT_menu_id => "Failed to update menu item"
  | DELETE_menu_id => "Failed to delete menu item"
  end.

(** The statement a PUT request sends. *)
Definition update_of (req : Request) : Dml :=
  UpdateMenu (params_id req)
    (prop (body req) "name") (prop (body req) "description")
    (prop (body req) "price") (prop (body req) "available").

(** The row a POST request stores when its insert commits. *)
Definition created_row (req : Request) (env : Env) : Row :=
  mkRow (uuid env)
    (prop (body req) "name") (prop (body req) "description")
    (prop (body req) "price") (prop (body req) "available")
    (commit_ts env).

(** The same environment with another commit timestamp. *)
Definition with_commit_ts (ts : Z) (env : Env) : Env :=
  mkEnv (uuid env) (now_iso env) ts
        (begin_fails env) (run_update_fails env) (commit_fails env) (run_fails env).

(** ** Example data *)

Definition quiet : Env :=
  mkEnv "id-1" "2024-01-01T00:00:00.000Z" 100 None None None None.
Definition read_down : Env :=
  mkEnv "id-1" "2024-01-01T00:00:00.000Z" 100 None None None (Some "deadline exceeded").
Definition commit_down : Env :=
  mkEnv "id-1" "2024-01-01T00:00:00.000Z" 100 None None (Some "aborted") None.

Definition latte : gmap string jsval :=
  <["name" := JStr "Latte"]> (<["description" := JStr "Hot milk coffee"]>
  (<["price" := JNum 450]> (<["available" := JBool true]> ∅))).
Definition free_sample : gmap string jsval :=
  <["price" := JNum 0]> (<["available" := JBool false]> latte).
Definition no_price : gmap string jsval := delete "price" latte.
Definition no_name : gmap string jsval := <["name" := JStr ""]> latte.

Definition latte_row : Row :=
  mkRow "id-1" (JStr "Latte") (JStr "Hot milk coffee") (JNum 450) (JBool true) 100.
Definition mocha_row : Row :=
  mkRow "id-2" (JStr "Mocha") (JStr "Chocolate") (JNum 500) (JBool true) 200.
Definition shop : World := mkWorld [latte_row; mocha_row] None [].

(** * Properties *)

(** ** Running the monad *)

Ltac run_M :=
  unfold runTransactionAsync, runUpdate, commit, run, record, may_reject,
    try_catch, uuidv4, Date_toISOString, get, put, ask, throw, rethrow,
    mbind, M_bind, mret, M_ret; simpl.

Lemma app_two {A} (l : list A) a b : (l ++ [a]) ++ [b] = l ++ [a; b].
Proof. by rewrite <- app_assoc. Qed.

Lemma app_three {A} (l : list A) a b c : ((l ++ [a]) ++ [b]) ++ [c] = l ++ [a; b; c].
Proof. by rewrite <- !app_assoc. Qed.

(** A write transaction none of whose calls rejects applies its statement. *)
Lemma transaction_commits q env w :
  txn_error env = None →
  runTransactionAsync (runUpdate q;; commit) env w =
  (Returned tt,
   mkWorld (exec_dml (commit_ts env) q (Menu w)) None
           (log w ++ [EvRunTransaction; EvRunUpdate q; EvCommit])).
Proof.
  unfold txn_error. intros H.
  destruct (begin_fails env) eqn:Hb; [done|].
  destruct (run_update_fails env) eqn:Hu; [done|].
  run_M. rewrite Hb; simpl. rewrite Hu; simpl. rewrite H; simpl.
  by rewrite app_three.
Qed.

(** A write transaction one of whose calls rejects throws that error and
    leaves the table as it was. *)
Lemma transaction_fails q env w msg :
  txn_error env = Some msg →
  ∃ w', runTransactionAsync (runUpdate q;; commit) env w = (Thrown (mkError msg), w')
        ∧ Menu w' = Menu w
        ∧ ∃ evs, log w' = log w ++ EvRunTransaction :: evs.
Proof.
  unfold txn_error. intros H. run_M.
  destruct (begin_fails env) eqn:Hb; simpl.
  { simplify_eq. eexists; split; [done|]. simpl. eauto. }
  destruct (run_update_fails env) eqn:Hu; simpl.
  { simplify_eq. eexists; split; [done|]. simpl. split; [done|].
    rewrite app_two. eauto. }
  rewrite H; simpl. eexists; split; [done|]. simpl. split; [done|].
  rewrite app_three. eauto.
Qed.

(** ** Validation *)

Lemma truthy_false_iff v : truthy v = false ↔ v ∈ falsy_values.
Proof.
  unfold falsy_values. split.
  - destruct v as [| |[]|n| |s| | |]; simpl; try done; intros H.
    + set_solver.
    + set_solver.
    + set_solver.
    + apply negb_false_iff, Z.eqb_eq in H. subst. set_solver.
    + set_solver.
    + apply negb_false_iff, String.eqb_eq in H. subst. set_solver.
  - rewrite !elem_of_cons, elem_of_nil.
    intros [->|[->|[->|[->|[->|[->|[]]]]]]]; done.
Qed.

Lemma prop_missing_or_null b k :
  missing_or_null b k → loose_eq_null (prop b k) = true ∧ truthy (prop b k) = false.
Proof. unfold prop. by intros [-> | ->]. Qed.

Lemma invalid_input_missing b k :
  k ∈ required_fields → missing_or_null b k →
  invalid_input (prop b "name") (prop b "description")
                (prop b "price") (prop b "available") = true.
Proof.
  unfold required_fields, invalid_input.
  rewrite !elem_of_cons, elem_of_nil.
  intros [->|[->|[->|[->|[]]]]] [Hn Ht]%prop_missing_or_null;
    rewrite ?Hn, ?Ht; simpl; by rewrite ?orb_true_r.
Qed.

Lemma invalid_input_falsy name description price available :
  name ∈ falsy_values ∨ description ∈ falsy_values →
  invalid_input name description price available = true.
Proof.
  unfold invalid_input.
  intros [H%truthy_false_iff | H%truthy_false_iff]; rewrite H; simpl;
    by rewrite ?orb_true_r.
Qed.

Lemma post_menu_invalid req env w :
  ¬ valid_body (body req) →
  post_menu req env w =
  (Returned (mkResponse 400 (JObj [("error", JStr "Invalid input data")])), w).
Proof.
  unfold valid_body, post_menu. intros H%not_false_is_true.
  run_M. by rewrite H.
Qed.

Lemma put_menu_invalid req env w :
  ¬ valid_body (body req) →
  put_menu req env w =
  (Returned (mkResponse 400 (JObj [("error", JStr "Invalid input data")])), w).
Proof.
  unfold valid_body, put_menu. intros H%not_false_is_true.
  run_M. by rewrite H.
Qed.

(** C1. A POST /menu or PUT /menu/:id request whose body lacks one of
    name, description, price, available, or has it null, is answered 400
    with the validation error, and the world is returned exactly as it
    was: same table, no transaction opened, no call added to the log. *)
Theorem validation_short_circuits (req : Request) (env : Env) (w : World) (k : string) :
  k ∈ required_fields →
  missing_or_null (body req) k →
  post_menu req env w =
    (Returned (mkResponse 400 (JObj [("error", JStr "Invalid input data")])), w)
  ∧ put_menu req env w =
    (Returned (mkResponse 400 (JObj [("error", JStr "Invalid input data")])), w).
Proof.
  intros Hk Hm.
  assert (¬ valid_body (body req)) as Hv.
  { unfold valid_body. by rewrite (invalid_input_missing _ k). }
  split; [by apply post_menu_invalid | by apply put_menu_invalid].
Qed.

Lemma validation_short_circuits_witness :
  "price" ∈ required_fields
  ∧ missing_or_null no_price "price"
  ∧ post_menu (mkRequest "id-1" no_price) quiet shop =
      (Returned (mkResponse 400 (JObj [("error", JStr "Invalid input data")])), shop)
  ∧ put_menu (mkRequest "id-1" no_price) quiet shop =
      (Returned (mkResponse 400 (JObj [("error", JStr "Invalid input data")])), shop).
Proof.
  assert ("price" ∈ required_fields) as Hk
    by (do 2 apply list_elem_of_further; apply list_elem_of_here).
  assert (missing_or_null no_price "price") as Hm by (left; reflexivity).
  split; [exact Hk|]. split; [exact Hm|].
  exact (validation_short_circuits (mkRequest "id-1" no_price) quiet shop "price" Hk Hm).
Defined.

(** C9. A POST /menu or PUT /menu/:id request whose name or description
    is falsy (undefined, null, false, 0, NaN or the empty string) is
    answered 400 and the world is returned exactly as it was. *)
Theorem falsy_text_rejected (req : Request) (env : Env) (w : World) :
  prop (body req) "name" ∈ falsy_values
  ∨ prop (body req) "description" ∈ falsy_values →
  post_menu req env w =
    (Returned (mkResponse 400 (JObj [("error", JStr "Invalid input data")])), w)
  ∧ put_menu req env w =
    (Returned (mkResponse 400 (JObj [("error", JStr "Invalid input data")])), w).
Proof.
  intros H.
  assert (¬ valid_body (body req)) as Hv.
  { unfold valid_body. by rewrite invalid_input_falsy. }
  split; [by apply post_menu_invalid | by apply put_menu_invalid].
Qed.

Lemma falsy_text_rejected_witness :
  (prop no_name "name" ∈ falsy_values ∨ prop no_name "description" ∈ falsy_values)
  ∧ post_menu (mkRequest "id-1" no_name) quiet shop =
      (Returned (mkResponse 400 (JObj [("error", JStr "Invalid input data")])), shop)
  ∧ put_menu (mkRequest "id-1" no_name) quiet shop =
      (Returned (mkResponse 400 (JObj [("error", JStr "Invalid input data")])), shop).
Proof.
  assert (prop no_name "name" ∈ falsy_values ∨ prop no_name "description" ∈ falsy_values) as H.
  { left. do 5 apply list_elem_of_further. apply list_elem_of_here. }
  split; [exact H|].
  exact (falsy_text_rejected (mkRequest "id-1" no_name) quiet shop H).
Defined.

(** ** Create *)

Lemma bind_run {A B} (m : M A) (f : A → M B) env w :
  (m ≫= f) env w =
  match m env w with
  | (Returned a, w') => f a env w'
  | (Thrown e, w') => (Thrown e, w')
  end.
Proof. reflexivity. Qed.

Lemma try_run {A} (m : M A) (h : Error → M A) env w :
  try_catch m h env w =
  match m env w with
  | (Returned a, w') => (Returned a, w')
  | (Thrown e, w') => h e env w'
  end.
Proof. reflexivity. Qed.

Lemma post_menu_commits req env w :
  valid_body (body req) →
  txn_error env = None →
  post_menu req env w =
  (Returned (mkResponse 201
     (JObj [("menuId", JStr (uuid env));
            ("name", prop (body req) "name");
            ("description", prop (body req) "description");
            ("price", prop (body req) "price");
            ("available", prop (body req) "available");
            ("createdAt", JStr (now_iso env))])),
   mkWorld (Menu w ++ [mkRow (uuid env)
                         (prop (body req) "name") (prop (body req) "description")
                         (prop (body req) "price") (prop (body req) "available")
                         (commit_ts env)])
           None
           (log w ++ [EvRunTransaction;
                      EvRunUpdate (InsertMenu (uuid env)
                         (prop (body req) "name") (prop (body req) "description")
                         (prop (body req) "price") (prop (body req) "available"));
                      EvCommit])).
Proof.
  unfold valid_body, post_menu. intros Hv Ht.
  rewrite bind_run. unfold uuidv4 at 1. rewrite bind_run. simpl.
  rewrite Hv, try_run, bind_run, transaction_commits by done.
  reflexivity.
Qed.

Lemma post_menu_fails req env w msg :
  valid_body (body req) →
  txn_error env = Some msg →
  ∃ w', post_menu req env w =
          (Returned (mkResponse 500 (JObj [("error", JStr "Failed to create menu item");
                                           ("details", JStr msg)])), w')
        ∧ Menu w' = Menu w
        ∧ ∃ evs, log w' = log w ++ EvRunTransaction :: evs.
Proof.
  unfold valid_body, post_menu. intros Hv Ht.
  rewrite bind_run. unfold uuidv4 at 1. rewrite bind_run. simpl.
  rewrite Hv, try_run, bind_run.
  destruct (transaction_fails
    (InsertMenu (uuid env) (prop (body req) "name") (prop (body req) "description")
                (prop (body req) "price") (prop (body req) "available"))
    env w msg Ht) as (w' & -> & Hm & Hl).
  exists w'. done.
Qed.

(** ** Update *)

Lemma run_run q env w :
  run q env w =
  match run_fails env with
  | Some msg => (Thrown (mkError msg), mkWorld (Menu w) (txn w) (log w ++ [EvRun q]))
  | None => (Returned (exec_query q (Menu w)), mkWorld (Menu w) (txn w) (log w ++ [EvRun q]))
  end.
Proof. run_M. by destruct (run_fails env). Qed.

Lemma put_menu_commits req env w :
  valid_body (body req) →
  txn_error env = None →
  put_menu req env w =
  let table := exec_dml (commit_ts env) (update_of req) (Menu w) in
  let w' := mkWorld table None
              (log w ++ [EvRunTransaction; EvRunUpdate (update_of req); EvCommit;
                         EvRun (SelectByMenuId (params_id req))]) in
  match run_fails env with
  | Some msg =>
      (Returned (mkResponse 500 (JObj [("error", JStr "Failed to update menu item");
                                       ("details", JStr msg)])), w')
  | None =>
      (Returned
         match exec_query (SelectByMenuId (params_id req)) table with
         | [] => mkResponse 404 (JObj [("error", JStr "Menu item not found")])
         | item :: _ => mkResponse 200 (item_of_row item)
         end, w')
  end.
Proof.
  unfold valid_body, put_menu, update_of. intros Hv Ht.
  rewrite Hv, try_run, bind_run, transaction_commits by done.
  rewrite bind_run, run_run. simpl.
  rewrite <- app_assoc. simpl.
  destruct (run_fails env); [done|].
  by destruct (filter _ _).
Qed.

Lemma put_menu_fails req env w msg :
  valid_body (body req) →
  txn_error env = Some msg →
  ∃ w', put_menu req env w =
          (Returned (mkResponse 500 (JObj [("error", JStr "Failed to update menu item");
                                           ("details", JStr msg)])), w')
        ∧ Menu w' = Menu w
        ∧ ∃ evs, log w' = log w ++ EvRunTransaction :: evs.
Proof.
  unfold valid_body, put_menu. intros Hv Ht.
  rewrite Hv, try_run, bind_run.
  destruct (transaction_fails
    (UpdateMenu (params_id req) (prop (body req) "name") (prop (body req) "description")
                (prop (body req) "price") (prop (body req) "available"))
    env w msg Ht) as (w' & -> & Hm & Hl).
  exists w'. done.
Qed.

(** The table after any PUT request: updated when the request was valid
    and the transaction committed, as it was otherwise. *)
Lemma put_menu_table req env w :
  Menu (put_menu req env w).2 = Menu w
  ∨ Menu (put_menu req env w).2 = exec_dml (commit_ts env) (update_of req) (Menu w).
Proof.
  destruct (decide (valid_body (body req))) as [Hv|Hv].
  - destruct (txn_error env) as [msg|] eqn:Ht.
    + destruct (put_menu_fails req env w msg Hv Ht) as (w' & -> & Hm & _). by left.
    + rewrite put_menu_commits by done. simpl. right. by destruct (run_fails env).
  - rewrite put_menu_invalid by done. by left.
Qed.

(** The UPDATE statement row by row. *)
Lemma update_lookup ts id name description price available rows (i : nat) r :
  rows !! i = Some r →
  exec_dml ts (UpdateMenu id name description price available) rows !! i =
  Some (if decide (MenuId r = id)
        then set_mutable name description price available r else r).
Proof. simpl. intros H. by rewrite list_lookup_fmap, H. Qed.

Lemma select_after_update ts id name description price available rows :
  exec_query (SelectByMenuId id)
    (exec_dml ts (UpdateMenu id name description price available) rows) =
  set_mutable name description price available
    <$> exec_query (SelectByMenuId id) rows.
Proof.
  unfold exec_query, exec_dml. induction rows as [|r rows IH]; [done|].
  rewrite fmap_cons, !filter_cons. destruct (decide (MenuId r = id)) as [He|Hne].
  - rewrite decide_True by done. by rewrite fmap_cons, IH.
  - by rewrite decide_False.
Qed.

Lemma select_none id rows :
  (∀ r, r ∈ rows → MenuId r ≠ id) → exec_query (SelectByMenuId id) rows = [].
Proof.
  unfold exec_query. induction rows as [|r rows IH]; intros H; [done|].
  rewrite filter_cons, decide_False by (apply H; left).
  apply IH. intros r' Hr'. apply H. by right.
Qed.

(** C2. A PUT /menu/:id request with a valid body whose transaction
    commits is followed by a separate read by id, logged after the commit.
    When that read returns no row the answer is 404 with only an error
    field; when it returns a row the answer is 200 with that row's
    fields.  In particular an id that matches no row gives 404, and an id
    that matches a row gives 200 with the submitted values and the row's
    own id and creation time. *)
Theorem update_reads_back (req : Request) (env : Env) (w : World) :
  valid_body (body req) →
  txn_error env = None →
  run_fails env = None →
  ∃ resp w',
    put_menu req env w = (Returned resp, w')
    ∧ log w' = log w ++ [EvRunTransaction; EvRunUpdate (update_of req); EvCommit;
                         EvRun (SelectByMenuId (params_id req))]
    ∧ match exec_query (SelectByMenuId (params_id req)) (Menu w') with
      | [] => resp = mkResponse 404 (JObj [("error", JStr "Menu item not found")])
      | item :: _ =>
          resp = mkResponse 200
                   (JObj [("menuId", JStr (MenuId item));
                          ("name", Name item);
                          ("description", Description item);
                          ("price", Price item);
                          ("available", Available item);
                          ("createdAt", JDate (CreatedAt item))])
      end
    ∧ ((∀ r, r ∈ Menu w → MenuId r ≠ params_id req) →
       resp = mkResponse 404 (JObj [("error", JStr "Menu item not found")]))
    ∧ (∀ r, head (exec_query (SelectByMenuId (params_id req)) (Menu w)) = Some r →
       resp = mkResponse 200
                (JObj [("menuId", JStr (MenuId r));
                       ("name", prop (body req) "name");
                       ("description", prop (body req) "description");
                       ("price", prop (body req) "price");
                       ("available", prop (body req) "available");
                       ("createdAt", JDate (CreatedAt r))])).
Proof.
  intros Hv Ht Hr. rewrite put_menu_commits by done. rewrite Hr. cbv zeta.
  eexists _, _. split; [reflexivity|]. cbn [log Menu].
  split; [done|]. split; [|split].
  - by destruct (exec_query _ _).
  - intros Hnone. unfold update_of.
    by rewrite select_after_update, select_none.
  - intros r Hhead. unfold update_of. rewrite select_after_update.
    destruct (exec_query _ (Menu w)) as [|r0 rest]; [done|].
    simpl in Hhead. by simplify_eq.
Qed.

Lemma update_reads_back_witness :
  valid_body free_sample ∧ txn_error quiet = None ∧ run_fails quiet = None
  ∧ ∃ resp w',
    put_menu (mkRequest "id-9" free_sample) quiet shop = (Returned resp, w')
    ∧ log w' = log shop ++ [EvRunTransaction;
                            EvRunUpdate (update_of (mkRequest "id-9" free_sample));
                            EvCommit; EvRun (SelectByMenuId "id-9")]
    ∧ resp = mkResponse 404 (JObj [("error", JStr "Menu item not found")]).
Proof.
  assert (valid_body free_sample) as Hv by reflexivity.
  assert (txn_error quiet = None) as Ht by reflexivity.
  assert (run_fails quiet = None) as Hr by reflexivity.
  split; [exact Hv|]. split; [exact Ht|]. split; [exact Hr|].
  destruct (update_reads_back (mkRequest "id-9" free_sample) quiet shop Hv Ht Hr)
    as (resp & w' & Hrun & Hlog & Hread & Hnone & Hsome).
  exists resp, w'. split; [exact Hrun|]. split; [exact Hlog|].
  apply Hnone. intros r Hin Heq. simpl in Hin, Heq.
  apply elem_of_cons in Hin as [->|Hin]; [discriminate Heq|].
  apply elem_of_cons in Hin as [->|Hin]; [discriminate Heq|].
  by apply elem_of_nil in Hin.
Defined.

(** C7. Whatever the request and whatever the store does, PUT /menu/:id
    leaves the table with the same rows in the same places, each with its
    id and creation time unchanged, and each row of another id unchanged
    altogether: only name, description, price and available of rows
    matching the id can differ. *)
Theorem update_frame (req : Request) (env : Env) (w : World) :
  length (Menu (put_menu req env w).2) = length (Menu w)
  ∧ ∀ (i : nat) (r : Row), Menu w !! i = Some r →
      ∃ r', Menu (put_menu req env w).2 !! i = Some r'
            ∧ MenuId r' = MenuId r
            ∧ CreatedAt r' = CreatedAt r
            ∧ (MenuId r ≠ params_id req → r' = r).
Proof.
  destruct (put_menu_table req env w) as [-> | ->].
  - split; [done|]. intros i r Hi. by exists r.
  - split; [simpl; by rewrite length_fmap|].
    intros i r Hi. unfold update_of. rewrite (update_lookup _ _ _ _ _ _ _ _ r) by done.
    eexists; split; [done|]. by case_decide.
Qed.

Lemma update_frame_witness :
  Menu shop !! 1%nat = Some mocha_row
  ∧ MenuId mocha_row ≠ "id-1"
  ∧ Menu (put_menu (mkRequest "id-1" free_sample) quiet shop).2 !! 1%nat = Some mocha_row.
Proof.
  assert (Menu shop !! 1%nat = Some mocha_row) as Hi by reflexivity.
  assert (MenuId mocha_row ≠ "id-1") as Hne by (vm_compute; discriminate).
  split; [exact Hi|]. split; [exact Hne|].
  destruct (update_frame (mkRequest "id-1" free_sample) quiet shop) as [_ Hrows].
  destruct (Hrows 1%nat mocha_row Hi) as (r' & Hr' & _ & _ & Hsame).
  rewrite Hr'. f_equal. exact (Hsame Hne).
Defined.

(** C10. When the update transaction of PUT /menu/:id commits and the read
    that follows rejects, the answer is 500 although the table holds the
    update: the read is logged after the commit, and any matching row that
    the submitted values change makes the table differ from what it was. *)
Theorem update_500_after_commit (req : Request) (env : Env) (w : World) (msg : string) :
  valid_body (body req) →
  txn_error env = None →
  run_fails env = Some msg →
  ∃ w',
    put_menu req env w =
      (Returned (mkResponse 500 (JObj [("error", JStr "Failed to update menu item");
                                       ("details", JStr msg)])), w')
    ∧ log w' = log w ++ [EvRunTransaction; EvRunUpdate (update_of req); EvCommit;
                         EvRun (SelectByMenuId (params_id req))]
    ∧ Menu w' = exec_dml (commit_ts env) (update_of req) (Menu w)
    ∧ (∀ r, r ∈ Menu w → MenuId r = params_id req →
         set_mutable (prop (body req) "name") (prop (body req) "description")
                     (prop (body req) "price") (prop (body req) "available") r ≠ r →
         Menu w' ≠ Menu w).
Proof.
  intros Hv Ht Hr. rewrite put_menu_commits by done. rewrite Hr. cbv zeta.
  eexists. split; [reflexivity|]. cbn [log Menu].
  split; [done|]. split; [done|].
  intros r [i Hi]%list_elem_of_lookup Hid Hchg Heq.
  pose proof (update_lookup (commit_ts env) (params_id req)
    (prop (body req) "name") (prop (body req) "description")
    (prop (body req) "price") (prop (body req) "available") (Menu w) i r Hi) as Hu.
  unfold update_of in Heq. rewrite Heq, Hi, decide_True in Hu by done.
  by simplify_eq.
Qed.

Lemma update_500_after_commit_witness :
  valid_body free_sample ∧ txn_error read_down = None
  ∧ run_fails read_down = Some "deadline exceeded"
  ∧ ∃ w',
    put_menu (mkRequest "id-1" free_sample) read_down shop =
      (Returned (mkResponse 500 (JObj [("error", JStr "Failed to update menu item");
                                       ("details", JStr "deadline exceeded")])), w')
    ∧ Menu w' ≠ Menu shop.
Proof.
  assert (valid_body free_sample) as Hv by reflexivity.
  assert (txn_error read_down = None) as Ht by reflexivity.
  assert (run_fails read_down = Some "deadline exceeded") as Hr by reflexivity.
  split; [exact Hv|]. split; [exact Ht|]. split; [exact Hr|].
  destruct (update_500_after_commit (mkRequest "id-1" free_sample) read_down shop
              "deadline exceeded" Hv Ht Hr) as (w' & Hrun & Hlog & Htab & Hneq).
  exists w'. split; [exact Hrun|].
  apply (Hneq latte_row).
  - left.
  - reflexivity.
  - vm_compute. discriminate.
Defined.

(** C6. A valid POST /menu request whose insert commits is answered 201
    with the minted identifier (under key menuId), the submitted name,
    description, price and available, and a createdAt that is the
    application clock's string read after the transaction.  The stored
    row carries the store's commit timestamp instead, and the answer is
    the same whatever that commit timestamp is. *)
Theorem create_returns_item (req : Request) (env : Env) (w : World) :
  valid_body (body req) →
  txn_error env = None →
  ∃ w',
    post_menu req env w =
      (Returned (mkResponse 201
         (JObj [("menuId", JStr (uuid env));
                ("name", prop (body req) "name");
                ("description", prop (body req) "description");
                ("price", prop (body req) "price");
                ("available", prop (body req) "available");
                ("createdAt", JStr (now_iso env))])), w')
    ∧ Menu w' = Menu w ++ [mkRow (uuid env)
                             (prop (body req) "name") (prop (body req) "description")
                             (prop (body req) "price") (prop (body req) "available")
                             (commit_ts env)]
    ∧ ∀ ts, (post_menu req (with_commit_ts ts env) w).1 = (post_menu req env w).1.
Proof.
  intros Hv Ht. rewrite post_menu_commits by done.
  eexists. split; [reflexivity|]. split; [done|].
  intros ts. rewrite post_menu_commits; done.
Qed.

Lemma create_returns_item_witness :
  valid_body latte ∧ txn_error quiet = None
  ∧ ∃ w',
    post_menu (mkRequest "" latte) quiet shop =
      (Returned (mkResponse 201
         (JObj [("menuId", JStr "id-1");
                ("name", JStr "Latte");
                ("description", JStr "Hot milk coffee");
                ("price", JNum 450);
                ("available", JBool true);
                ("createdAt", JStr "2024-01-01T00:00:00.000Z")])), w').
Proof.
  assert (valid_body latte) as Hv by reflexivity.
  assert (txn_error quiet = None) as Ht by reflexivity.
  split; [exact Hv|]. split; [exact Ht|].
  destruct (create_returns_item (mkRequest "" latte) quiet shop Hv Ht)
    as (w' & Hrun & _).
  exists w'. exact Hrun.
Defined.

(** ** Boundary values *)

Lemma post_menu_proceeds req env w :
  valid_body (body req) →
  ∃ resp w' evs,
    post_menu req env w = (Returned resp, w')
    ∧ status resp ≠ 400
    ∧ log w' = log w ++ EvRunTransaction :: evs.
Proof.
  intros Hv. destruct (txn_error env) as [msg|] eqn:Ht.
  - destruct (post_menu_fails req env w msg Hv Ht) as (w' & -> & _ & evs & Hl).
    by eexists _, w', evs.
  - rewrite post_menu_commits by done. by eexists _, _, _.
Qed.

Lemma put_menu_proceeds req env w :
  valid_body (body req) →
  ∃ resp w' evs,
    put_menu req env w = (Returned resp, w')
    ∧ status resp ≠ 400
    ∧ log w' = log w ++ EvRunTransaction :: evs.
Proof.
  intros Hv. destruct (txn_error env) as [msg|] eqn:Ht.
  - destruct (put_menu_fails req env w msg Hv Ht) as (w' & -> & _ & evs & Hl).
    by eexists _, w', evs.
  - rewrite put_menu_commits by done. cbv zeta.
    destruct (run_fails env); [by eexists _, _, _|].
    eexists _, _, _. split; [done|]. split; [|done].
    by destruct (exec_query _ _).
Qed.

(** C4. A body with non-empty strings for name and description, price 0
    and available false passes validation: on POST /menu and on
    PUT /menu/:id the answer is not 400 and the handler goes on to the
    store, its first call there being the write transaction. *)
Theorem zero_and_false_accepted (req : Request) (env : Env) (w : World) (n d : string) :
  n ≠ "" → d ≠ "" →
  body req !! "name" = Some (JStr n) →
  body req !! "description" = Some (JStr d) →
  body req !! "price" = Some (JNum 0) →
  body req !! "available" = Some (JBool false) →
  valid_body (body req)
  ∧ (∃ resp w' evs,
       post_menu req env w = (Returned resp, w')
       ∧ status resp ≠ 400
       ∧ log w' = log w ++ EvRunTransaction :: evs)
  ∧ (∃ resp w' evs,
       put_menu req env w = (Returned resp, w')
       ∧ status resp ≠ 400
       ∧ log w' = log w ++ EvRunTransaction :: evs).
Proof.
  intros Hn Hd En Ed Ep Ea.
  assert (valid_body (body req)) as Hv.
  { unfold valid_body, invalid_input, prop. rewrite En, Ed, Ep, Ea. simpl.
    apply String.eqb_neq in Hn, Hd. by rewrite Hn, Hd. }
  split; [done|]. split; [by apply post_menu_proceeds | by apply put_menu_proceeds].
Qed.

Lemma zero_and_false_accepted_witness :
  "Latte" ≠ "" ∧ "Hot milk coffee" ≠ ""
  ∧ free_sample !! "name" = Some (JStr "Latte")
  ∧ free_sample !! "description" = Some (JStr "Hot milk coffee")
  ∧ free_sample !! "price" = Some (JNum 0)
  ∧ free_sample !! "available" = Some (JBool false)
  ∧ valid_body free_sample
  ∧ (post_menu (mkRequest "" free_sample) quiet shop).1 =
      Returned (mkResponse 201
         (JObj [("menuId", JStr "id-1");
                ("name", JStr "Latte");
                ("description", JStr "Hot milk coffee");
                ("price", JNum 0);
                ("available", JBool false);
                ("createdAt", JStr "2024-01-01T00:00:00.000Z")])).
Proof.
  assert ("Latte" ≠ "") as Hn by discriminate.
  assert ("Hot milk coffee" ≠ "") as Hd by discriminate.
  assert (free_sample !! "name" = Some (JStr "Latte")) as En by reflexivity.
  assert (free_sample !! "description" = Some (JStr "Hot milk coffee")) as Ed
    by reflexivity.
  assert (free_sample !! "price" = Some (JNum 0)) as Ep by reflexivity.
  assert (free_sample !! "available" = Some (JBool false)) as Ea by reflexivity.
  do 6 (split; [assumption|]).
  split.
  - exact (proj1 (zero_and_false_accepted (mkRequest "" free_sample) quiet shop
                    "Latte" "Hot milk coffee" Hn Hd En Ed Ep Ea)).
  - reflexivity.
Defined.

(** ** Delete *)

Lemma delete_menu_commits req env w :
  txn_error env = None →
  delete_menu req env w =
  (Returned (mkResponse 200 (JObj [("success", JBool true)])),
   mkWorld (filter (λ r, MenuId r ≠ params_id req) (Menu w)) None
           (log w ++ [EvRunTransaction; EvRunUpdate (DeleteMenu (params_id req));
                      EvCommit])).
Proof.
  unfold delete_menu. intros Ht.
  by rewrite try_run, bind_run, transaction_commits.
Qed.

Lemma delete_menu_fails req env w msg :
  txn_error env = Some msg →
  ∃ w', delete_menu req env w =
          (Returned (mkResponse 500 (JObj [("error", JStr "Failed to delete menu item");
                                           ("details", JStr msg)])), w')
        ∧ Menu w' = Menu w
        ∧ ∃ evs, log w' = log w ++ EvRunTransaction :: evs.
Proof.
  unfold delete_menu. intros Ht. rewrite try_run, bind_run.
  destruct (transaction_fails (DeleteMenu (params_id req)) env w msg Ht)
    as (w' & -> & Hm & Hl).
  exists w'. done.
Qed.

Lemma filter_all {A} (P : A → Prop) `{∀ x, Decision (P x)} (l : list A) :
  (∀ x, x ∈ l → P x) → filter P l = l.
Proof.
  induction l as [|x l IH]; intros Hall; [done|].
  rewrite filter_cons, decide_True by (apply Hall; left).
  f_equal. apply IH. intros y Hy. apply Hall. by right.
Qed.

(** C3. DELETE /menu/:id, when its transaction commits, answers 200 with
    success true for every id; its only store calls are the transaction,
    the DELETE statement and the commit (no read, no existence check); it
    removes exactly the rows of that id, so it changes nothing when no row
    has the id, and a second delete of the same id leaves the table as the
    first one left it. *)
Theorem delete_idempotent (req : Request) (env env2 : Env) (w : World) :
  txn_error env = None →
  txn_error env2 = None →
  ∃ w1 w2,
    delete_menu req env w =
      (Returned (mkResponse 200 (JObj [("success", JBool true)])), w1)
    ∧ delete_menu req env2 w1 =
      (Returned (mkResponse 200 (JObj [("success", JBool true)])), w2)
    ∧ log w1 = log w ++ [EvRunTransaction; EvRunUpdate (DeleteMenu (params_id req));
                         EvCommit]
    ∧ (∀ r, r ∈ Menu w1 ↔ r ∈ Menu w ∧ MenuId r ≠ params_id req)
    ∧ ((∀ r, r ∈ Menu w → MenuId r ≠ params_id req) → Menu w1 = Menu w)
    ∧ Menu w2 = Menu w1.
Proof.
  intros Ht Ht2. rewrite delete_menu_commits by done.
  eexists _, _. split; [reflexivity|].
  rewrite delete_menu_commits by done.
  split; [reflexivity|]. cbn [log Menu].
  split; [done|]. split; [|split].
  - intros r. rewrite list_elem_of_filter. tauto.
  - intros Hnone. by apply filter_all.
  - apply filter_all. intros r Hr. by apply list_elem_of_filter in Hr as [? _].
Qed.

Lemma delete_idempotent_witness :
  txn_error quiet = None
  ∧ ∃ w1 w2,
    delete_menu (mkRequest "id-9" ∅) quiet shop =
      (Returned (mkResponse 200 (JObj [("success", JBool true)])), w1)
    ∧ delete_menu (mkRequest "id-9" ∅) quiet w1 =
      (Returned (mkResponse 200 (JObj [("success", JBool true)])), w2)
    ∧ Menu w1 = Menu shop
    ∧ Menu w2 = Menu w1.
Proof.
  assert (txn_error quiet = None) as Ht by reflexivity.
  split; [exact Ht|].
  destruct (delete_idempotent (mkRequest "id-9" ∅) quiet quiet shop Ht Ht)
    as (w1 & w2 & H1 & H2 & _ & _ & Hnone & Hsame).
  exists w1, w2. split; [exact H1|]. split; [exact H2|]. split; [|exact Hsame].
  apply Hnone. intros r Hin Heq. simpl in Hin, Heq.
  apply elem_of_cons in Hin as [->|Hin]; [discriminate Heq|].
  apply elem_of_cons in Hin as [->|Hin]; [discriminate Heq|].
  by apply elem_of_nil in Hin.
Defined.

(** ** List *)

Global Instance newer_first_total : Total newer_first.
Proof. intros r1 r2. unfold newer_first. lia. Qed.

Global Instance newer_first_trans : Transitive newer_first.
Proof. intros r1 r2 r3. unfold newer_first. lia. Qed.

Lemma get_menu_run req env w :
  get_menu req env w =
  match run_fails env with
  | Some msg =>
      (Returned (mkResponse 500 (JObj [("error", JStr "Failed to fetch menu items");
                                       ("details", JStr msg)])),
       mkWorld (Menu w) (txn w) (log w ++ [EvRun SelectAllOrderByCreatedAtDesc]))
  | None =>
      (Returned (mkResponse 200
         (JArr (item_of_row <$> exec_query SelectAllOrderByCreatedAtDesc (Menu w)))),
       mkWorld (Menu w) (txn w) (log w ++ [EvRun SelectAllOrderByCreatedAtDesc]))
  end.
Proof.
  unfold get_menu. rewrite try_run, bind_run, run_run.
  by destruct (run_fails env).
Qed.

(** C5. GET /menu, when its read succeeds, answers 200 with one object
    per row of the table, all rows and only them, newest creation time
    first, each object carrying the row's columns MenuId, Name,
    Description, Price, Available, CreatedAt under the keys menuId, name,
    description, price, available, createdAt; the table is not changed. *)
Theorem list_newest_first (req : Request) (env : Env) (w : World) :
  run_fails env = None →
  ∃ rows w',
    get_menu req env w =
      (Returned (mkResponse 200
         (JArr ((λ item, JObj [("menuId", JStr (MenuId item));
                               ("name", Name item);
                               ("description", Description item);
                               ("price", Price item);
                               ("available", Available item);
                               ("createdAt", JDate (CreatedAt item))]) <$> rows))), w')
    ∧ rows ≡ₚ Menu w
    ∧ StronglySorted (λ r1 r2, CreatedAt r2 ≤ CreatedAt r1) rows
    ∧ Menu w' = Menu w
    ∧ log w' = log w ++ [EvRun SelectAllOrderByCreatedAtDesc].
Proof.
  intros Hr. rewrite get_menu_run, Hr.
  eexists _, _. split; [reflexivity|]. simpl.
  split; [apply merge_sort_Permutation|].
  split; [|done].
  apply (StronglySorted_merge_sort newer_first).
Qed.

Lemma list_newest_first_witness :
  run_fails quiet = None
  ∧ ∃ rows w',
    (get_menu (mkRequest "" ∅) quiet shop).1 =
      Returned (mkResponse 200 (JArr (item_of_row <$> rows)))
    ∧ rows ≡ₚ [latte_row; mocha_row]
    ∧ StronglySorted (λ r1 r2, CreatedAt r2 ≤ CreatedAt r1) rows
    ∧ Menu w' = [latte_row; mocha_row].
Proof.
  assert (run_fails quiet = None) as Hr by reflexivity.
  split; [exact Hr|].
  destruct (list_newest_first (mkRequest "" ∅) quiet shop Hr)
    as (rows & w' & Hrun & Hperm & Hsorted & Htable & _).
  exists rows, w'. rewrite Hrun.
  split; [reflexivity|]. split; [exact Hperm|]. split; [exact Hsorted|exact Htable].
Defined.

Example list_newest_first_shop :
  (get_menu (mkRequest "" ∅) quiet shop).1 =
  Returned (mkResponse 200 (JArr [item_of_row mocha_row; item_of_row latte_row])).
Proof. reflexivity. Qed.

(** ** Storage failures *)

(** C8. On every route, when a store call made for an accepted request
    rejects with message msg, the handler answers 500 with the object
    error, details, where error is the route's summary and details is msg.
    When the rejected call belongs to the write transaction (or the route
    is the read-only list) the table is as it was before the request. *)
Theorem storage_failure_is_500 (route : Route) (req : Request) (env : Env) (w : World) (msg : string) :
  accepted route req →
  store_error route env = Some msg →
  ∃ w',
    handle route req env w =
      (Returned (mkResponse 500 (JObj [("error", JStr (failure_summary route));
                                       ("details", JStr msg)])), w')
    ∧ (route = GET_menu ∨ is_Some (txn_error env) → Menu w' = Menu w).
Proof.
  destruct route; simpl; intros Hv He.
  - destruct (post_menu_fails req env w msg Hv He) as (w' & -> & Hm & _).
    by exists w'.
  - rewrite get_menu_run, He. by eexists.
  - destruct (txn_error env) as [m|] eqn:Ht.
    + simplify_eq. destruct (put_menu_fails req env w msg Hv Ht) as (w' & -> & Hm & _).
      by exists w'.
    + rewrite put_menu_commits by done. rewrite He.
      eexists. split; [reflexivity|]. intros [?|[? ?]]; done.
  - destruct (delete_menu_fails req env w msg He) as (w' & -> & Hm & _).
    by exists w'.
Qed.

Lemma storage_failure_is_500_witness :
  accepted POST_menu (mkRequest "" latte)
  ∧ store_error POST_menu commit_down = Some "aborted"
  ∧ ∃ w',
    post_menu (mkRequest "" latte) commit_down shop =
      (Returned (mkResponse 500 (JObj [("error", JStr "Failed to create menu item");
                                       ("details", JStr "aborted")])), w')
    ∧ Menu w' = Menu shop.
Proof.
  assert (accepted POST_menu (mkRequest "" latte)) as Hv by reflexivity.
  assert (store_error POST_menu commit_down = Some "aborted") as He by reflexivity.
  split; [exact Hv|]. split; [exact He|].
  destruct (storage_failure_is_500 POST_menu (mkRequest "" latte) commit_down shop
              "aborted" Hv He) as (w' & Hrun & Hsame).
  exists w'. split; [exact Hrun|].
  apply Hsame. right. exists "aborted". reflexivity.
Defined.

(** Every handler answers: no exception escapes a route. *)
Lemma handle_responds route req env w :
  ∃ resp w', handle route req env w = (Returned resp, w').
Proof.
  destruct route; simpl.
  - destruct (decide (valid_body (body req))) as [Hv|Hv];
      [|rewrite post_menu_invalid by done; by eexists _, _].
    destruct (post_menu_proceeds req env w Hv) as (resp & w' & _ & -> & _).
    by eexists _, _.
  - rewrite get_menu_run. destruct (run_fails env); by eexists _, _.
  - destruct (decide (valid_body (body req))) as [Hv|Hv];
      [|rewrite put_menu_invalid by done; by eexists _, _].
    destruct (put_menu_proceeds req env w Hv) as (resp & w' & _ & -> & _).
    by eexists _, _.
  - destruct (txn_error env) as [msg|] eqn:Ht.
    + destruct (delete_menu_fails req env w msg Ht) as (w' & -> & _).
      by eexists _, _.
    + rewrite delete_menu_commits by done. by eexists _, _.
Qed.

(** ** A session *)

(** The example of the specification: create a latte, update its price
    and availability, delete it, list. *)
Example lifecycle :
  let env2 := with_commit_ts 200 quiet in
  let latte480 := <["price" := JNum 480]> (<["available" := JBool false]> latte) in
  let '(r1, w1) := post_menu (mkRequest "" latte) quiet (mkWorld [] None []) in
  let '(r2, w2) := put_menu (mkRequest "id-1" latte480) env2 w1 in
  let '(r3, w3) := delete_menu (mkRequest "id-1" ∅) env2 w2 in
  let '(r4, w4) := get_menu (mkRequest "" ∅) env2 w3 in
  r1 = Returned (mkResponse 201
         (JObj [("menuId", JStr "id-1"); ("name", JStr "Latte");
                ("description", JStr "Hot milk coffee"); ("price", JNum 450);
                ("available", JBool true);
                ("createdAt", JStr "2024-01-01T00:00:00.000Z")]))
  ∧ r2 = Returned (mkResponse 200
         (JObj [("menuId", JStr "id-1"); ("name", JStr "Latte");
                ("description", JStr "Hot milk coffee"); ("price", JNum 480);
                ("available", JBool false); ("createdAt", JDate 100)]))
  ∧ r3 = Returned (mkResponse 200 (JObj [("success", JBool true)]))
  ∧ r4 = Returned (mkResponse 200 (JArr []))
  ∧ Menu w4 = [].
Proof. vm_compute. repeat split. Qed.

(** * Further properties of the handlers *)

(** ** What an answer says about the table *)

Lemma invalid_input_iff name description price available :
  invalid_input name description price available = true ↔
  name ∈ falsy_values ∨ description ∈ falsy_values
  ∨ price ∈ [JUndefined; JNull] ∨ available ∈ [JUndefined; JNull].
Proof.
  assert (∀ v, loose_eq_null v = true ↔ v ∈ [JUndefined; JNull]) as Hnull.
  { intros v. rewrite !elem_of_cons, elem_of_nil.
    destruct v; simpl; split; intros H; auto; try discriminate;
      by destruct H as [?|[?|[]]]. }
  unfold invalid_input.
  rewrite !orb_true_iff, !negb_true_iff, !truthy_false_iff, !Hnull. tauto.
Qed.

(** X1. POST /menu always answers, and the answer tells what happened to
    the table: 201 means exactly one row was appended after the existing
    ones, carrying the minted id, the submitted fields and the commit
    timestamp; 400 or 500 means the table is what it was. *)
Theorem create_outcomes (req : Request) (env : Env) (w : World) :
  ∃ resp w',
    post_menu req env w = (Returned resp, w')
    ∧ ((status resp = 201
        ∧ Menu w' = Menu w ++ [mkRow (uuid env)
                                 (prop (body req) "name") (prop (body req) "description")
                                 (prop (body req) "price") (prop (body req) "available")
                                 (commit_ts env)])
       ∨ ((status resp = 400 ∨ status resp = 500) ∧ Menu w' = Menu w)).
Proof.
  destruct (decide (valid_body (body req))) as [Hv|Hv].
  - destruct (txn_error env) as [msg|] eqn:Ht.
    + destruct (post_menu_fails req env w msg Hv Ht) as (w' & -> & Hm & _).
      eexists _, w'. split; [done|]. right. simpl. auto.
    + rewrite post_menu_commits by done.
      eexists _, _. split; [done|]. left. done.
  - rewrite post_menu_invalid by done.
    eexists _, _. split; [done|]. right. simpl. auto.
Qed.

(** X2. DELETE /menu/:id always answers 200 or 500.  After 200 no row of
    that id is left; after 500 the table is what it was.  In both cases
    the rows of other ids are all kept, in their order, and no row is
    added. *)
Theorem delete_outcomes (req : Request) (env : Env) (w : World) :
  ∃ resp w',
    delete_menu req env w = (Returned resp, w')
    ∧ ((status resp = 200 ∧ ∀ r, r ∈ Menu w' → MenuId r ≠ params_id req)
       ∨ (status resp = 500 ∧ Menu w' = Menu w))
    ∧ Menu w' `sublist_of` Menu w
    ∧ ∀ r, r ∈ Menu w → MenuId r ≠ params_id req → r ∈ Menu w'.
Proof.
  destruct (txn_error env) as [msg|] eqn:Ht.
  - destruct (delete_menu_fails req env w msg Ht) as (w' & -> & Hm & _).
    eexists _, w'. split; [done|]. rewrite Hm. split; [right; done|]. done.
  - rewrite delete_menu_commits by done.
    eexists _, _. split; [done|]. cbn [Menu status]. split; [|split].
    + left. split; [done|]. intros r Hr. by apply list_elem_of_filter in Hr as [? _].
    + apply sublist_filter.
    + intros r Hr Hne. by apply list_elem_of_filter.
Qed.

Lemma delete_outcomes_witness :
  mocha_row ∈ Menu shop ∧ MenuId mocha_row ≠ "id-1"
  ∧ ∃ resp w',
    delete_menu (mkRequest "id-1" ∅) quiet shop = (Returned resp, w')
    ∧ mocha_row ∈ Menu w'.
Proof.
  assert (mocha_row ∈ Menu shop) as Hin
    by (apply list_elem_of_further; apply list_elem_of_here).
  assert (MenuId mocha_row ≠ "id-1") as Hne by discriminate.
  split; [exact Hin|]. split; [exact Hne|].
  destruct (delete_outcomes (mkRequest "id-1" ∅) quiet shop)
    as (resp & w' & Hrun & _ & _ & Hkept).
  exists resp, w'. split; [exact Hrun|]. exact (Hkept mocha_row Hin Hne).
Defined.

(** X14. A create or update request is answered 400 exactly when its name
    or description is falsy or its price or available is undefined or
    null; nothing else about the four values is checked. *)
Theorem rejected_exactly_when (req : Request) (env : Env) (w : World) :
  let bad :=
    prop (body req) "name" ∈ falsy_values
    ∨ prop (body req) "description" ∈ falsy_values
    ∨ prop (body req) "price" ∈ [JUndefined; JNull]
    ∨ prop (body req) "available" ∈ [JUndefined; JNull] in
  ((∃ resp w', post_menu req env w = (Returned resp, w') ∧ status resp = 400) ↔ bad)
  ∧ ((∃ resp w', put_menu req env w = (Returned resp, w') ∧ status resp = 400) ↔ bad).
Proof.
  intros bad.
  assert (bad ↔ ¬ valid_body (body req)) as Hbad.
  { unfold bad, valid_body. rewrite <- invalid_input_iff.
    by destruct (invalid_input _ _ _ _). }
  rewrite !Hbad. split; split.
  - intros (resp & w' & Hrun & Hs) Hv.
    destruct (post_menu_proceeds req env w Hv) as (resp' & w'' & evs & Hrun' & Hne & _).
    congruence.
  - intros Hv. rewrite post_menu_invalid by done. by eexists _, _.
  - intros (resp & w' & Hrun & Hs) Hv.
    destruct (put_menu_proceeds req env w Hv) as (resp' & w'' & evs & Hrun' & Hne & _).
    congruence.
  - intros Hv. rewrite put_menu_invalid by done. by eexists _, _.
Qed.

Lemma select_nil_inv id rows :
  exec_query (SelectByMenuId id) rows = [] → ∀ r, r ∈ rows → MenuId r ≠ id.
Proof.
  unfold exec_query. intros Hnil r Hr Heq.
  assert (r ∈ filter (λ r, MenuId r = id) rows) as Hin by by apply list_elem_of_filter.
  rewrite Hnil in Hin. by apply elem_of_nil in Hin.
Qed.

Lemma update_absent ts id name description price available rows :
  (∀ r, r ∈ rows → MenuId r ≠ id) →
  exec_dml ts (UpdateMenu id name description price available) rows = rows.
Proof.
  unfold exec_dml. induction rows as [|r rows IH]; intros Hnone; [done|].
  rewrite fmap_cons, decide_False by (apply Hnone; left).
  f_equal. apply IH. intros r' Hr'. apply Hnone. by right.
Qed.

Lemma update_elem ts id name description price available rows r' :
  r' ∈ exec_dml ts (UpdateMenu id name description price available) rows →
  MenuId r' = id →
  ∃ r, r ∈ rows ∧ MenuId r = id ∧ r' = set_mutable name description price available r.
Proof.
  unfold exec_dml. intros (r & -> & Hr)%list_elem_of_fmap Hid.
  exists r. destruct (decide (MenuId r = id)) as [He|Hne]; [done|].
  by destruct Hne.
Qed.

(** X3. When PUT /menu/:id answers 404, no row had that id, the table is
    exactly what it was (the update created nothing), and the handler did
    run and commit its transaction before reading. *)
Theorem update_404_means_absent (req : Request) (env : Env) (w w' : World) (resp : Response) :
  put_menu req env w = (Returned resp, w') →
  status resp = 404 →
  (∀ r, r ∈ Menu w → MenuId r ≠ params_id req)
  ∧ Menu w' = Menu w
  ∧ log w' = log w ++ [EvRunTransaction; EvRunUpdate (update_of req); EvCommit;
                       EvRun (SelectByMenuId (params_id req))].
Proof.
  intros Hrun Hs.
  destruct (decide (valid_body (body req))) as [Hv|Hv];
    [|rewrite put_menu_invalid in Hrun by done; by simplify_eq].
  destruct (txn_error env) as [msg|] eqn:Ht.
  { destruct (put_menu_fails req env w msg Hv Ht) as (w'' & Hrun' & _).
    rewrite Hrun' in Hrun. by simplify_eq. }
  rewrite put_menu_commits in Hrun by done. cbv zeta in Hrun.
  destruct (run_fails env); [by simplify_eq|].
  unfold update_of in Hrun. rewrite select_after_update in Hrun.
  destruct (exec_query _ (Menu w)) as [|r rest] eqn:Hsel; [|by simplify_eq].
  pose proof (select_nil_inv _ _ Hsel) as Hnone.
  simplify_eq. cbn [Menu log]. split; [done|]. split; [|done].
  by apply update_absent.
Qed.

Lemma update_404_means_absent_witness :
  (∃ resp w',
     put_menu (mkRequest "id-9" free_sample) quiet shop = (Returned resp, w')
     ∧ status resp = 404)
  ∧ Menu (put_menu (mkRequest "id-9" free_sample) quiet shop).2 = Menu shop.
Proof.
  assert (put_menu (mkRequest "id-9" free_sample) quiet shop =
          (Returned (mkResponse 404 (JObj [("error", JStr "Menu item not found")])),
           (put_menu (mkRequest "id-9" free_sample) quiet shop).2)) as Hrun
    by reflexivity.
  assert (status (mkResponse 404 (JObj [("error", JStr "Menu item not found")])) = 404)
    as Hs by reflexivity.
  split; [eexists _, _; split; [exact Hrun|exact Hs]|].
  exact (proj1 (proj2 (update_404_means_absent _ _ _ _ _ Hrun Hs))).
Defined.

(** X4. When PUT /menu/:id answers 200, a row of that id existed, every
    row of that id now holds the submitted name, description, price and
    available, and the body returned is that id, the submitted values and
    the creation time of an existing row of that id. *)
Theorem update_200_means_stored (req : Request) (env : Env) (w w' : World) (resp : Response) :
  put_menu req env w = (Returned resp, w') →
  status resp = 200 →
  (∃ r, r ∈ Menu w ∧ MenuId r = params_id req
        ∧ json resp = JObj [("menuId", JStr (params_id req));
                            ("name", prop (body req) "name");
                            ("description", prop (body req) "description");
                            ("price", prop (body req) "price");
                            ("available", prop (body req) "available");
                            ("createdAt", JDate (CreatedAt r))])
  ∧ ∀ r', r' ∈ Menu w' → MenuId r' = params_id req →
      Name r' = prop (body req) "name"
      ∧ Description r' = prop (body req) "description"
      ∧ Price r' = prop (body req) "price"
      ∧ Available r' = prop (body req) "available".
Proof.
  intros Hrun Hs.
  destruct (decide (valid_body (body req))) as [Hv|Hv];
    [|rewrite put_menu_invalid in Hrun by done; by simplify_eq].
  destruct (txn_error env) as [msg|] eqn:Ht.
  { destruct (put_menu_fails req env w msg Hv Ht) as (w'' & Hrun' & _).
    rewrite Hrun' in Hrun. by simplify_eq. }
  rewrite put_menu_commits in Hrun by done. cbv zeta in Hrun.
  destruct (run_fails env); [by simplify_eq|].
  unfold update_of in Hrun. rewrite select_after_update in Hrun.
  destruct (exec_query _ (Menu w)) as [|r rest] eqn:Hsel; [by simplify_eq|].
  assert (r ∈ Menu w ∧ MenuId r = params_id req) as [Hin Hid].
  { assert (r ∈ filter (λ r, MenuId r = params_id req) (Menu w)) as H
      by (unfold exec_query in Hsel; rewrite Hsel; left).
    apply list_elem_of_filter in H. tauto. }
  rewrite fmap_cons in Hrun. simplify_eq. cbn [Menu json]. split.
  - exists r. split; [done|]. split; [done|]. unfold item_of_row. simpl.
    by rewrite Hid.
  - intros r' Hr' Hid'.
    destruct (update_elem _ _ _ _ _ _ _ _ Hr' Hid') as (r0 & _ & _ & ->). done.
Qed.

Lemma update_200_means_stored_witness :
  (∃ resp w',
     put_menu (mkRequest "id-1" free_sample) quiet shop = (Returned resp, w')
     ∧ status resp = 200)
  ∧ ∀ r', r' ∈ Menu (put_menu (mkRequest "id-1" free_sample) quiet shop).2 →
      MenuId r' = "id-1" → Price r' = JNum 0 ∧ Available r' = JBool false.
Proof.
  assert (put_menu (mkRequest "id-1" free_sample) quiet shop =
          (Returned (mkResponse 200 (item_of_row
             (mkRow "id-1" (JStr "Latte") (JStr "Hot milk coffee")
                    (JNum 0) (JBool false) 100))),
           (put_menu (mkRequest "id-1" free_sample) quiet shop).2)) as Hrun
    by reflexivity.
  split; [eexists _, _; split; [exact Hrun|reflexivity]|].
  intros r' Hr' Hid.
  destruct (proj2 (update_200_means_stored _ _ _ _ _ Hrun eq_refl) r' Hr' Hid)
    as (_ & _ & Hp & Ha).
  split; [exact Hp|exact Ha].
Defined.

Lemma update_update ts1 ts2 id n1 d1 p1 a1 n2 d2 p2 a2 rows :
  exec_dml ts2 (UpdateMenu id n2 d2 p2 a2)
    (exec_dml ts1 (UpdateMenu id n1 d1 p1 a1) rows) =
  exec_dml ts2 (UpdateMenu id n2 d2 p2 a2) rows.
Proof.
  unfold exec_dml. rewrite <- list_fmap_compose. apply list_fmap_ext.
  intros i r _. simpl.
  destruct (decide (MenuId r = id)) as [He|Hne]; simpl.
  - by rewrite decide_True.
  - by rewrite decide_False.
Qed.

(** X5. PUT replaces, it does not merge: after two committed updates of
    the same id the table is what the second update alone would have
    made it, so the last update wins and repeating an update changes
    nothing. *)
Theorem update_last_write_wins (req1 req2 : Request) (env1 env2 : Env) (w : World) :
  params_id req1 = params_id req2 →
  valid_body (body req1) → valid_body (body req2) →
  txn_error env1 = None → txn_error env2 = None →
  Menu (put_menu req2 env2 (put_menu req1 env1 w).2).2 =
  Menu (put_menu req2 env2 w).2.
Proof.
  intros Hid Hv1 Hv2 Ht1 Ht2.
  rewrite (put_menu_commits req1) by done.
  rewrite !(put_menu_commits req2) by done. cbv zeta.
  destruct (run_fails env1), (run_fails env2); cbn [snd Menu];
    unfold update_of; rewrite Hid; apply update_update.
Qed.

Lemma update_last_write_wins_witness :
  valid_body latte ∧ valid_body free_sample ∧ txn_error quiet = None
  ∧ Menu (put_menu (mkRequest "id-1" free_sample) quiet
            (put_menu (mkRequest "id-1" latte) quiet shop).2).2 =
    Menu (put_menu (mkRequest "id-1" free_sample) quiet shop).2.
Proof.
  assert (valid_body latte) as Hv1 by reflexivity.
  assert (valid_body free_sample) as Hv2 by reflexivity.
  assert (txn_error quiet = None) as Ht by reflexivity.
  split; [exact Hv1|]. split; [exact Hv2|]. split; [exact Ht|].
  exact (update_last_write_wins (mkRequest "id-1" latte) (mkRequest "id-1" free_sample)
           quiet quiet shop eq_refl Hv1 Hv2 Ht Ht).
Defined.

(** ** What the handlers read and what they call *)

Lemma prop_insert_ne b k v f : k ≠ f → prop (<[k:=v]> b) f = prop b f.
Proof. intros Hne. unfold prop. by rewrite lookup_insert_ne. Qed.

(** X13. Only name, description, price and available are read from the
    body: a field of any other name, such as menuId or createdAt, changes
    neither the answer nor the store, on create and on update. *)
Theorem other_fields_ignored (id k : string) (v : jsval) (b : gmap string jsval) (env : Env) (w : World) :
  k ∉ required_fields →
  post_menu (mkRequest id (<[k:=v]> b)) env w = post_menu (mkRequest id b) env w
  ∧ put_menu (mkRequest id (<[k:=v]> b)) env w = put_menu (mkRequest id b) env w.
Proof.
  unfold required_fields. rewrite !not_elem_of_cons. intros (Hn & Hd & Hp & Ha & _).
  unfold post_menu, put_menu. cbn [body params_id].
  by rewrite !prop_insert_ne.
Qed.

Lemma other_fields_ignored_witness :
  ("menuId" ∉ required_fields)
  ∧ post_menu (mkRequest "" (<["menuId" := JStr "chosen"]> latte)) quiet shop =
    post_menu (mkRequest "" latte) quiet shop.
Proof.
  assert ("menuId" ∉ required_fields) as Hk.
  { intros Hin. unfold required_fields in Hin.
    apply elem_of_cons in Hin as [Heq|Hin]; [discriminate Heq|].
    apply elem_of_cons in Hin as [Heq|Hin]; [discriminate Heq|].
    apply elem_of_cons in Hin as [Heq|Hin]; [discriminate Heq|].
    apply elem_of_cons in Hin as [Heq|Hin]; [discriminate Heq|].
    by apply elem_of_nil in Hin. }
  split; [exact Hk|].
  exact (proj1 (other_fields_ignored "" "menuId" (JStr "chosen") latte quiet shop Hk)).
Defined.

(** X15. Every route answers every request, and only with the status
    codes of its own paths: create 201, 400 or 500; list 200 or 500;
    update 200, 400, 404 or 500; delete 200 or 500. *)
Theorem status_codes (route : Route) (req : Request) (env : Env) (w : World) :
  ∃ resp w',
    handle route req env w = (Returned resp, w')
    ∧ match route with
      | POST_menu => status resp = 201 ∨ status resp = 400 ∨ status resp = 500
      | GET_menu => status resp = 200 ∨ status resp = 500
      | PUT_menu_id =>
          status resp = 200 ∨ status resp = 400 ∨ status resp = 404 ∨ status resp = 500
      | DELETE_menu_id => status resp = 200 ∨ status resp = 500
      end.
Proof.
  destruct route; simpl.
  - destruct (decide (valid_body (body req))) as [Hv|Hv];
      [|rewrite post_menu_invalid by done; eexists _, _; split; [done|]; simpl; auto].
    destruct (txn_error env) as [msg|] eqn:Ht.
    + destruct (post_menu_fails req env w msg Hv Ht) as (w' & -> & _).
      eexists _, _; split; [done|]; simpl; auto.
    + rewrite post_menu_commits by done. eexists _, _; split; [done|]; simpl; auto.
  - rewrite get_menu_run.
    destruct (run_fails env); eexists _, _; (split; [done|]); simpl; auto.
  - destruct (decide (valid_body (body req))) as [Hv|Hv];
      [|rewrite put_menu_invalid by done; eexists _, _; split; [done|]; simpl; auto].
    destruct (txn_error env) as [msg|] eqn:Ht.
    + destruct (put_menu_fails req env w msg Hv Ht) as (w' & -> & _).
      eexists _, _; split; [done|]; simpl; auto.
    + rewrite put_menu_commits by done. cbv zeta.
      destruct (run_fails env); [eexists _, _; split; [done|]; simpl; auto|].
      destruct (exec_query _ _); eexists _, _; (split; [done|]); simpl; auto.
  - destruct (txn_error env) as [msg|] eqn:Ht.
    + destruct (delete_menu_fails req env w msg Ht) as (w' & -> & _).
      eexists _, _; split; [done|]; simpl; auto.
    + rewrite delete_menu_commits by done. eexists _, _; split; [done|]; simpl; auto.
Qed.

(** A write transaction that fails made a beginning of the calls
    runTransactionAsync, runUpdate, commit and left the table as it was. *)
Lemma transaction_fails_calls q env w msg :
  txn_error env = Some msg →
  ∃ w' evs,
    runTransactionAsync (runUpdate q;; commit) env w = (Thrown (mkError msg), w')
    ∧ Menu w' = Menu w
    ∧ log w' = log w ++ evs
    ∧ evs `prefix_of` [EvRunTransaction; EvRunUpdate q; EvCommit].
Proof.
  unfold txn_error. intros H. run_M.
  destruct (begin_fails env) eqn:Hb; simpl.
  { simplify_eq. eexists _, [EvRunTransaction]. do 3 (split; [done|]). by eexists. }
  destruct (run_update_fails env) eqn:Hu; simpl.
  { simplify_eq. eexists _, [EvRunTransaction; EvRunUpdate q].
    split; [done|]. split; [done|]. split; [by rewrite app_two|]. by eexists. }
  rewrite H; simpl. eexists _, [EvRunTransaction; EvRunUpdate q; EvCommit].
  split; [done|]. split; [done|]. split; [by rewrite app_three|]. done.
Qed.

Lemma commit_among a b : EvCommit ∈ a :: b :: EvCommit :: [].
Proof. do 2 apply list_elem_of_further. apply list_elem_of_here. Qed.

(** X16. The store calls of a request are a beginning of its route's
    fixed sequence and nothing else: for create, update and delete one
    transaction with the one statement built from the request, then its
    commit (and for update one read by id after it); for list the one
    query.  The table never changes unless the commit was called. *)
Theorem store_calls (route : Route) (req : Request) (env : Env) (w : World) :
  ∃ evs,
    log (handle route req env w).2 = log w ++ evs
    ∧ evs `prefix_of`
        match route with
        | POST_menu =>
            [EvRunTransaction;
             EvRunUpdate (InsertMenu (uuid env)
                            (prop (body req) "name") (prop (body req) "description")
                            (prop (body req) "price") (prop (body req) "available"));
             EvCommit]
        | GET_menu => [EvRun SelectAllOrderByCreatedAtDesc]
        | PUT_menu_id =>
            [EvRunTransaction; EvRunUpdate (update_of req); EvCommit;
             EvRun (SelectByMenuId (params_id req))]
        | DELETE_menu_id =>
            [EvRunTransaction; EvRunUpdate (DeleteMenu (params_id req)); EvCommit]
        end
    ∧ (EvCommit ∉ evs → Menu (handle route req env w).2 = Menu w).
Proof.
  destruct route; simpl.
  - destruct (decide (valid_body (body req))) as [Hv|Hv].
    2:{ rewrite post_menu_invalid by done. exists []. simpl.
        split; [by rewrite app_nil_r|]. split; [by eexists|done]. }
    destruct (txn_error env) as [msg|] eqn:Ht.
    + unfold valid_body in Hv. unfold post_menu.
      rewrite bind_run. unfold uuidv4 at 1. rewrite bind_run. simpl.
      rewrite Hv, try_run, bind_run.
      destruct (transaction_fails_calls
        (InsertMenu (uuid env) (prop (body req) "name") (prop (body req) "description")
                    (prop (body req) "price") (prop (body req) "available"))
        env w msg Ht) as (w' & evs & -> & Hm & Hl & Hp).
      exists evs. done.
    + rewrite post_menu_commits by done. eexists. simpl.
      split; [done|]. split; [done|]. intros Hnot. destruct Hnot. apply commit_among.
  - rewrite get_menu_run. exists [EvRun SelectAllOrderByCreatedAtDesc].
    by destruct (run_fails env).
  - destruct (decide (valid_body (body req))) as [Hv|Hv].
    2:{ rewrite put_menu_invalid by done. exists []. simpl.
        split; [by rewrite app_nil_r|]. split; [by eexists|done]. }
    destruct (txn_error env) as [msg|] eqn:Ht.
    + unfold valid_body in Hv. unfold put_menu.
      rewrite Hv, try_run, bind_run.
      destruct (transaction_fails_calls
        (UpdateMenu (params_id req) (prop (body req) "name")
                    (prop (body req) "description")
                    (prop (body req) "price") (prop (body req) "available"))
        env w msg Ht) as (w' & evs & -> & Hm & Hl & [k Hp]).
      exists evs. simpl. split; [done|]. split; [|done].
      exists (k ++ [EvRun (SelectByMenuId (params_id req))]).
      unfold update_of. rewrite app_assoc, <- Hp. done.
    + rewrite put_menu_commits by done. cbv zeta. eexists.
      split; [by destruct (run_fails env)|]. split; [done|].
      intros Hnot. destruct Hnot. do 2 apply list_elem_of_further. left.
  - destruct (txn_error env) as [msg|] eqn:Ht.
    + unfold delete_menu. rewrite try_run, bind_run.
      destruct (transaction_fails_calls (DeleteMenu (params_id req)) env w msg Ht)
        as (w' & evs & -> & Hm & Hl & Hp).
      exists evs. done.
    + rewrite delete_menu_commits by done. eexists. simpl.
      split; [done|]. split; [done|]. intros Hnot. destruct Hnot. apply commit_among.
Qed.

Lemma store_calls_witness :
  ∃ evs,
    log (post_menu (mkRequest "" latte)
           (mkEnv "id-3" "" 300 (Some "no session") None None None) shop).2 =
      log shop ++ evs
    ∧ (EvCommit ∉ evs)
    ∧ Menu (post_menu (mkRequest "" latte)
              (mkEnv "id-3" "" 300 (Some "no session") None None None) shop).2 =
      Menu shop.
Proof.
  destruct (store_calls POST_menu (mkRequest "" latte)
              (mkEnv "id-3" "" 300 (Some "no session") None None None) shop)
    as (evs & Hlog & _ & Hsame).
  assert (evs = [EvRunTransaction]) as Hevs by (simpl in Hlog; exact (eq_sym Hlog)).
  assert (EvCommit ∉ evs) as Hnot.
  { rewrite Hevs. intros Hin.
    apply elem_of_cons in Hin as [Heq|Hin]; [discriminate Heq|].
    by apply elem_of_nil in Hin. }
  exists evs. split; [exact Hlog|]. split; [exact Hnot|]. exact (Hsame Hnot).
Defined.

(** ** Requests in sequence *)

Lemma post_menu_table req env w :
  Menu (post_menu req env w).2 = Menu w
  ∨ Menu (post_menu req env w).2 = Menu w ++ [created_row req env].
Proof.
  destruct (decide (valid_body (body req))) as [Hv|Hv].
  - destruct (txn_error env) as [msg|] eqn:Ht.
    + destruct (post_menu_fails req env w msg Hv Ht) as (w' & -> & Hm & _). by left.
    + rewrite post_menu_commits by done. by right.
  - rewrite post_menu_invalid by done. by left.
Qed.

Lemma delete_menu_table req env w :
  Menu (delete_menu req env w).2 = Menu w
  ∨ Menu (delete_menu req env w).2 = filter (λ r, MenuId r ≠ params_id req) (Menu w).
Proof.
  destruct (txn_error env) as [msg|] eqn:Ht.
  - destruct (delete_menu_fails req env w msg Ht) as (w' & -> & Hm & _). by left.
  - rewrite delete_menu_commits by done. by right.
Qed.

(** X6. Create then list: after a create that committed, a list that
    succeeds shows the created item, with the minted id, the submitted
    values and the store's commit timestamp as createdAt, next to every
    item that was there before, and nothing else. *)
Theorem create_then_list (req req' : Request) (env1 env2 : Env) (w : World) :
  valid_body (body req) →
  txn_error env1 = None →
  run_fails env2 = None →
  ∃ resp1 w1 rows w2,
    post_menu req env1 w = (Returned resp1, w1)
    ∧ status resp1 = 201
    ∧ get_menu req' env2 w1 =
        (Returned (mkResponse 200 (JArr (item_of_row <$> rows))), w2)
    ∧ rows ≡ₚ created_row req env1 :: Menu w
    ∧ JObj [("menuId", JStr (uuid env1));
            ("name", prop (body req) "name");
            ("description", prop (body req) "description");
            ("price", prop (body req) "price");
            ("available", prop (body req) "available");
            ("createdAt", JDate (commit_ts env1))] ∈ item_of_row <$> rows.
Proof.
  intros Hv Ht Hr. rewrite post_menu_commits by done.
  eexists _, _, _, _. split; [reflexivity|]. split; [done|].
  rewrite get_menu_run, Hr. split; [reflexivity|]. cbn [Menu exec_query].
  assert (merge_sort newer_first (Menu w ++ [created_row req env1])
          ≡ₚ created_row req env1 :: Menu w) as Hperm.
  { rewrite merge_sort_Permutation. by rewrite Permutation_app_comm. }
  split; [exact Hperm|].
  apply (list_elem_of_fmap_2 item_of_row _ (created_row req env1)).
  rewrite Hperm. left.
Qed.

Lemma create_then_list_witness :
  valid_body latte ∧ txn_error quiet = None ∧ run_fails quiet = None
  ∧ ∃ rows w2,
      get_menu (mkRequest "" ∅) quiet (post_menu (mkRequest "" latte) quiet shop).2 =
        (Returned (mkResponse 200 (JArr (item_of_row <$> rows))), w2)
      ∧ rows ≡ₚ created_row (mkRequest "" latte) quiet :: Menu shop.
Proof.
  assert (valid_body latte) as Hv by reflexivity.
  assert (txn_error quiet = None) as Ht by reflexivity.
  assert (run_fails quiet = None) as Hr by reflexivity.
  split; [exact Hv|]. split; [exact Ht|]. split; [exact Hr|].
  destruct (create_then_list (mkRequest "" latte) (mkRequest "" ∅) quiet quiet shop
              Hv Ht Hr) as (resp1 & w1 & rows & w2 & H1 & _ & H2 & Hperm & _).
  exists rows, w2. rewrite H1. split; [exact H2|exact Hperm].
Defined.

(** The first row of a list sorted newest first is the one row that is
    strictly newer than all the others. *)
Lemma newest_is_head (x : Row) (l sorted : list Row) :
  (∀ r, r ∈ l → CreatedAt r < CreatedAt x) →
  StronglySorted newer_first sorted →
  sorted ≡ₚ x :: l →
  ∃ rest, sorted = x :: rest ∧ rest ≡ₚ l.
Proof.
  intros Hnew Hsorted Hperm.
  destruct sorted as [|h t].
  { apply Permutation_nil_cons in Hperm. done. }
  apply StronglySorted_cons in Hsorted as [Hh _].
  rewrite Forall_forall in Hh.
  assert (h = x) as ->.
  { assert (h ∈ x :: l) as Hin by (rewrite <- Hperm; left).
    apply elem_of_cons in Hin as [?|Hin]; [done|].
    assert (x ∈ h :: t) as Hx by (rewrite Hperm; left).
    apply elem_of_cons in Hx as [?|Hx]; [done|].
    specialize (Hh x Hx). specialize (Hnew h Hin). unfold newer_first in Hh. lia. }
  exists t. split; [done|]. by apply Permutation_cons_inv in Hperm.
Qed.

(** X7. Newest first: when the commit timestamp of a create is later than
    the creation time of every existing row, the created item is the
    first element of the next list, followed by the earlier items. *)
Theorem created_item_listed_first (req req' : Request) (env1 env2 : Env) (w : World) :
  valid_body (body req) →
  txn_error env1 = None →
  run_fails env2 = None →
  (∀ r, r ∈ Menu w → CreatedAt r < commit_ts env1) →
  ∃ rest w2,
    get_menu req' env2 (post_menu req env1 w).2 =
      (Returned (mkResponse 200
         (JArr (item_of_row (created_row req env1) :: (item_of_row <$> rest)))), w2)
    ∧ rest ≡ₚ Menu w.
Proof.
  intros Hv Ht Hr Hnew.
  pose proof (post_menu_commits req env1 w Hv Ht) as Hpost.
  fold (created_row req env1) in Hpost. rewrite Hpost.
  rewrite get_menu_run, Hr. cbn [Menu snd exec_query].
  destruct (newest_is_head (created_row req env1) (Menu w)
              (merge_sort newer_first (Menu w ++ [created_row req env1])))
    as (rest & -> & Hrest).
  - done.
  - apply (StronglySorted_merge_sort newer_first).
  - rewrite merge_sort_Permutation. by rewrite Permutation_app_comm.
  - by eexists rest, _.
Qed.

Lemma created_item_listed_first_witness :
  valid_body latte ∧ txn_error (with_commit_ts 300 quiet) = None
  ∧ run_fails quiet = None
  ∧ (∀ r, r ∈ Menu shop → CreatedAt r < 300)
  ∧ ∃ rest w2,
      get_menu (mkRequest "" ∅) quiet
        (post_menu (mkRequest "" latte) (with_commit_ts 300 quiet) shop).2 =
        (Returned (mkResponse 200
           (JArr (item_of_row (mkRow "id-1" (JStr "Latte") (JStr "Hot milk coffee")
                                 (JNum 450) (JBool true) 300)
                  :: (item_of_row <$> rest)))), w2)
      ∧ rest ≡ₚ Menu shop.
Proof.
  assert (valid_body latte) as Hv by reflexivity.
  assert (txn_error (with_commit_ts 300 quiet) = None) as Ht by reflexivity.
  assert (run_fails quiet = None) as Hr by reflexivity.
  assert (∀ r, r ∈ Menu shop → CreatedAt r < 300) as Hnew.
  { intros r Hin. simpl in Hin.
    apply elem_of_cons in Hin as [->|Hin]; [reflexivity|].
    apply elem_of_cons in Hin as [->|Hin]; [reflexivity|].
    by apply elem_of_nil in Hin. }
  split; [exact Hv|]. split; [exact Ht|]. split; [exact Hr|]. split; [exact Hnew|].
  exact (created_item_listed_first (mkRequest "" latte) (mkRequest "" ∅)
           (with_commit_ts 300 quiet) quiet shop Hv Ht Hr Hnew).
Defined.

(** ** Creation order *)

Lemma StronglySorted_weaken {A} (R S : relation A) (l : list A) :
  (∀ x y, R x y → S x y) → StronglySorted R l → StronglySorted S l.
Proof.
  intros HRS. induction 1 as [|x l Hl IH Hx]; constructor; [done|].
  eapply Forall_impl; [exact Hx|]. auto.
Qed.

(** In a table whose creation times strictly increase, a creation time
    identifies its row. *)
Lemma increasing_times_distinct (l : list Row) (x y : Row) :
  StronglySorted (λ r1 r2, CreatedAt r1 < CreatedAt r2) l →
  x ∈ l → y ∈ l → CreatedAt x = CreatedAt y → x = y.
Proof.
  induction 1 as [|a l Hl IH Ha]; intros Hx Hy Heq.
  { by apply elem_of_nil in Hx. }
  rewrite Forall_forall in Ha.
  apply elem_of_cons in Hx as [->|Hx]; apply elem_of_cons in Hy as [->|Hy].
  - done.
  - specialize (Ha y Hy). simpl in Ha. lia.
  - specialize (Ha x Hx). simpl in Ha. lia.
  - by apply IH.
Qed.

(** X8. When the rows of the table were inserted at strictly increasing
    creation times, a list that succeeds returns them in exactly the
    reverse of the order of insertion. *)
Theorem list_reverses_creation_order (req : Request) (env : Env) (w : World) :
  run_fails env = None →
  StronglySorted (λ r1 r2, CreatedAt r1 < CreatedAt r2) (Menu w) →
  (get_menu req env w).1 =
  Returned (mkResponse 200 (JArr (item_of_row <$> reverse (Menu w)))).
Proof.
  intros Hr Hinc. rewrite get_menu_run, Hr. cbn [fst exec_query].
  do 4 f_equal.
  apply (StronglySorted_unique_strong newer_first).
  - intros x1 x2 H1 H2 H12 H21. unfold newer_first in H12, H21.
    apply (increasing_times_distinct (Menu w)); [done| | |lia].
    + by rewrite (merge_sort_Permutation newer_first) in H1.
    + by apply elem_of_reverse.
  - apply (StronglySorted_merge_sort newer_first).
  - apply (StronglySorted_weaken (flip (λ r1 r2, CreatedAt r1 < CreatedAt r2))).
    { intros x y Hxy. unfold flip in Hxy. unfold newer_first. lia. }
    apply Sorted_StronglySorted.
    { intros x y z. unfold flip. lia. }
    apply Sorted_reverse. by apply StronglySorted_Sorted.
  - by rewrite (merge_sort_Permutation newer_first), reverse_Permutation.
Qed.

Lemma list_reverses_creation_order_witness :
  run_fails quiet = None
  ∧ StronglySorted (λ r1 r2, CreatedAt r1 < CreatedAt r2) (Menu shop)
  ∧ (get_menu (mkRequest "" ∅) quiet shop).1 =
    Returned (mkResponse 200 (JArr [item_of_row mocha_row; item_of_row latte_row])).
Proof.
  assert (run_fails quiet = None) as Hr by reflexivity.
  assert (StronglySorted (λ r1 r2, CreatedAt r1 < CreatedAt r2) (Menu shop)) as Hinc.
  { simpl. repeat constructor. }
  split; [exact Hr|]. split; [exact Hinc|].
  exact (list_reverses_creation_order (mkRequest "" ∅) quiet shop Hr Hinc).
Defined.

Lemma increasing_snoc (l : list Row) (x : Row) :
  StronglySorted (λ r1 r2, CreatedAt r1 < CreatedAt r2) l →
  (∀ r, r ∈ l → CreatedAt r < CreatedAt x) →
  StronglySorted (λ r1 r2, CreatedAt r1 < CreatedAt r2) (l ++ [x]).
Proof.
  intros Hl Hx. apply StronglySorted_app. split; [|split; [done|repeat constructor]].
  intros x1 x2 H1 H2. apply list_elem_of_singleton in H2 as ->. by apply Hx.
Qed.

Lemma increasing_filter (P : Row → Prop) `{∀ r, Decision (P r)} (l : list Row) :
  StronglySorted (λ r1 r2, CreatedAt r1 < CreatedAt r2) l →
  StronglySorted (λ r1 r2, CreatedAt r1 < CreatedAt r2) (filter P l).
Proof.
  induction 1 as [|x l Hl IH Hx]; [constructor|].
  rewrite filter_cons. destruct (decide (P x)); [|done].
  constructor; [done|].
  rewrite Forall_forall in Hx. apply Forall_forall.
  intros y Hy. apply list_elem_of_filter in Hy as [_ Hy]. by apply Hx.
Qed.

(** X9. Strictly increasing creation times along the table are an
    invariant of every route, as long as the store hands out a commit
    timestamp later than the creation times it already holds: create
    appends, update keeps creation times, delete only removes. *)
Theorem creation_order_kept (route : Route) (req : Request) (env : Env) (w : World) :
  StronglySorted (λ r1 r2, CreatedAt r1 < CreatedAt r2) (Menu w) →
  (∀ r, r ∈ Menu w → CreatedAt r < commit_ts env) →
  StronglySorted (λ r1 r2, CreatedAt r1 < CreatedAt r2) (Menu (handle route req env w).2).
Proof.
  intros Hinc Hnew. destruct route; simpl.
  - destruct (post_menu_table req env w) as [-> | ->]; [done|].
    by apply increasing_snoc.
  - rewrite get_menu_run. by destruct (run_fails env).
  - destruct (put_menu_table req env w) as [-> | ->]; [done|].
    unfold update_of, exec_dml.
    eapply StronglySorted_fmap; [|exact Hinc].
    intros x y Hxy. by repeat case_decide.
  - destruct (delete_menu_table req env w) as [-> | ->]; [done|].
    by apply increasing_filter.
Qed.

Lemma creation_order_kept_witness :
  StronglySorted (λ r1 r2, CreatedAt r1 < CreatedAt r2) (Menu shop)
  ∧ (∀ r, r ∈ Menu shop → CreatedAt r < 300)
  ∧ StronglySorted (λ r1 r2, CreatedAt r1 < CreatedAt r2)
      (Menu (post_menu (mkRequest "" latte) (with_commit_ts 300 quiet) shop).2).
Proof.
  assert (StronglySorted (λ r1 r2, CreatedAt r1 < CreatedAt r2) (Menu shop)) as Hinc.
  { simpl. repeat constructor. }
  assert (∀ r, r ∈ Menu shop → CreatedAt r < 300) as Hnew.
  { intros r Hin. simpl in Hin.
    apply elem_of_cons in Hin as [->|Hin]; [reflexivity|].
    apply elem_of_cons in Hin as [->|Hin]; [reflexivity|].
    by apply elem_of_nil in Hin. }
  split; [exact Hinc|]. split; [exact Hnew|].
  exact (creation_order_kept POST_menu (mkRequest "" latte) (with_commit_ts 300 quiet)
           shop Hinc Hnew).
Defined.

(** ** After a delete, after a create *)

(** X10. Delete then update: once a delete of an id has committed, a
    valid update of that id whose calls all succeed is answered 404 and
    leaves the table as the delete left it; the update does not bring the
    item back. *)
Theorem delete_then_update_404 (req_d req_u : Request) (env1 env2 : Env) (w : World) :
  params_id req_u = params_id req_d →
  txn_error env1 = None →
  valid_body (body req_u) →
  txn_error env2 = None →
  run_fails env2 = None →
  ∃ w1 w2,
    delete_menu req_d env1 w =
      (Returned (mkResponse 200 (JObj [("success", JBool true)])), w1)
    ∧ put_menu req_u env2 w1 =
      (Returned (mkResponse 404 (JObj [("error", JStr "Menu item not found")])), w2)
    ∧ Menu w2 = Menu w1.
Proof.
  intros Hid Ht1 Hv Ht2 Hr. rewrite delete_menu_commits by done.
  eexists _, _. split; [reflexivity|].
  rewrite put_menu_commits by done. rewrite Hr. cbv zeta. cbn [Menu].
  assert (∀ r, r ∈ filter (λ r, MenuId r ≠ params_id req_d) (Menu w) →
               MenuId r ≠ params_id req_u) as Hgone.
  { intros r Hin. rewrite Hid. by apply list_elem_of_filter in Hin as [? _]. }
  unfold update_of. rewrite select_after_update, select_none by done.
  split; [reflexivity|]. cbn [Menu]. by apply update_absent.
Qed.

Lemma delete_then_update_404_witness :
  txn_error quiet = None ∧ valid_body latte ∧ run_fails quiet = None
  ∧ ∃ w1 w2,
    delete_menu (mkRequest "id-1" ∅) quiet shop =
      (Returned (mkResponse 200 (JObj [("success", JBool true)])), w1)
    ∧ put_menu (mkRequest "id-1" latte) quiet w1 =
      (Returned (mkResponse 404 (JObj [("error", JStr "Menu item not found")])), w2)
    ∧ Menu w2 = Menu w1.
Proof.
  assert (txn_error quiet = None) as Ht by reflexivity.
  assert (valid_body latte) as Hv by reflexivity.
  assert (run_fails quiet = None) as Hr by reflexivity.
  split; [exact Ht|]. split; [exact Hv|]. split; [exact Hr|].
  exact (delete_then_update_404 (mkRequest "id-1" ∅) (mkRequest "id-1" latte)
           quiet quiet shop eq_refl Ht Hv Ht Hr).
Defined.

(** X11. Delete then list: once a delete of an id has committed, a list
    that succeeds contains no object whose menuId is that id, and still
    contains every row of another id. *)
Theorem delete_then_list (req req' : Request) (env1 env2 : Env) (w : World) :
  txn_error env1 = None →
  run_fails env2 = None →
  ∃ rows w2,
    get_menu req' env2 (delete_menu req env1 w).2 =
      (Returned (mkResponse 200 (JArr (item_of_row <$> rows))), w2)
    ∧ (∀ rest, JObj (("menuId", JStr (params_id req)) :: rest) ∉ item_of_row <$> rows)
    ∧ (∀ r, r ∈ Menu w → MenuId r ≠ params_id req → r ∈ rows).
Proof.
  intros Ht Hr. rewrite delete_menu_commits by done.
  rewrite get_menu_run, Hr. cbn [snd Menu exec_query].
  eexists _, _. split; [reflexivity|]. split.
  - intros rest (r & Heq & Hin)%list_elem_of_fmap.
    rewrite (merge_sort_Permutation newer_first) in Hin.
    apply list_elem_of_filter in Hin as [Hne _].
    unfold item_of_row in Heq. by simplify_eq.
  - intros r Hin Hne. rewrite (merge_sort_Permutation newer_first).
    by apply list_elem_of_filter.
Qed.

Lemma delete_then_list_witness :
  txn_error quiet = None ∧ run_fails quiet = None
  ∧ ∃ rows w2,
    get_menu (mkRequest "" ∅) quiet (delete_menu (mkRequest "id-1" ∅) quiet shop).2 =
      (Returned (mkResponse 200 (JArr (item_of_row <$> rows))), w2)
    ∧ (∀ rest, JObj (("menuId", JStr "id-1") :: rest) ∉ item_of_row <$> rows)
    ∧ mocha_row ∈ rows.
Proof.
  assert (txn_error quiet = None) as Ht by reflexivity.
  assert (run_fails quiet = None) as Hr by reflexivity.
  split; [exact Ht|]. split; [exact Hr|].
  destruct (delete_then_list (mkRequest "id-1" ∅) (mkRequest "" ∅) quiet quiet shop
              Ht Hr) as (rows & w2 & Hrun & Hgone & Hkept).
  exists rows, w2. split; [exact Hrun|]. split; [exact Hgone|].
  apply Hkept.
  - simpl. apply list_elem_of_further. apply list_elem_of_here.
  - simpl. discriminate.
Defined.

(** X12. Create then update: when the minted id is new to the table, a
    valid update of it whose calls all succeed is answered 200 with that
    id, the values of the update and, as createdAt, the commit timestamp
    of the create: an update never moves the creation time. *)
Theorem create_then_update (req1 req2 : Request) (env1 env2 : Env) (w : World) :
  valid_body (body req1) →
  txn_error env1 = None →
  (∀ r, r ∈ Menu w → MenuId r ≠ uuid env1) →
  params_id req2 = uuid env1 →
  valid_body (body req2) →
  txn_error env2 = None →
  run_fails env2 = None →
  ∃ w2,
    put_menu req2 env2 (post_menu req1 env1 w).2 =
      (Returned (mkResponse 200
         (JObj [("menuId", JStr (uuid env1));
                ("name", prop (body req2) "name");
                ("description", prop (body req2) "description");
                ("price", prop (body req2) "price");
                ("available", prop (body req2) "available");
                ("createdAt", JDate (commit_ts env1))])), w2).
Proof.
  intros Hv1 Ht1 Hfresh Hid Hv2 Ht2 Hr.
  rewrite post_menu_commits by done. cbn [snd].
  rewrite put_menu_commits by done. rewrite Hr. cbv zeta. cbn [Menu].
  unfold update_of. rewrite select_after_update, Hid.
  unfold exec_query. rewrite filter_app.
  pose proof (select_none (uuid env1) (Menu w) Hfresh) as Hnone.
  unfold exec_query in Hnone. rewrite Hnone.
  rewrite filter_cons, decide_True by done.
  eexists. reflexivity.
Qed.

Lemma create_then_update_witness :
  valid_body latte ∧ txn_error (mkEnv "id-3" "" 300 None None None None) = None
  ∧ (∀ r, r ∈ Menu shop → MenuId r ≠ "id-3")
  ∧ valid_body free_sample ∧ txn_error quiet = None ∧ run_fails quiet = None
  ∧ ∃ w2,
    put_menu (mkRequest "id-3" free_sample) quiet
      (post_menu (mkRequest "" latte) (mkEnv "id-3" "" 300 None None None None) shop).2 =
      (Returned (mkResponse 200
         (JObj [("menuId", JStr "id-3");
                ("name", JStr "Latte");
                ("description", JStr "Hot milk coffee");
                ("price", JNum 0);
                ("available", JBool false);
                ("createdAt", JDate 300)])), w2).
Proof.
  assert (valid_body latte) as Hv1 by reflexivity.
  assert (txn_error (mkEnv "id-3" "" 300 None None None None) = None) as Ht1
    by reflexivity.
  assert (∀ r, r ∈ Menu shop → MenuId r ≠ "id-3") as Hfresh.
  { intros r Hin. simpl in Hin.
    apply elem_of_cons in Hin as [->|Hin]; [discriminate|].
    apply elem_of_cons in Hin as [->|Hin]; [discriminate|].
    by apply elem_of_nil in Hin. }
  assert (valid_body free_sample) as Hv2 by reflexivity.
  assert (txn_error quiet = None) as Ht2 by reflexivity.
  assert (run_fails quiet = None) as Hr by reflexivity.
  split; [exact Hv1|]. split; [exact Ht1|]. split; [exact Hfresh|].
  split; [exact Hv2|]. split; [exact Ht2|]. split; [exact Hr|].
  exact (create_then_update (mkRequest "" latte) (mkRequest "id-3" free_sample)
           (mkEnv "id-3" "" 300 None None None None) quiet shop
           Hv1 Ht1 Hfresh eq_refl Hv2 Ht2 Hr).
Defined.

(** X19. Create is not idempotent: the same valid body posted twice, both
    inserts committing, is answered 201 twice and leaves two rows at the
    end of the table, one under each minted id. *)
Theorem create_twice (req : Request) (env1 env2 : Env) (w : World) :
  valid_body (body req) →
  txn_error env1 = None →
  txn_error env2 = None →
  ∃ resp1 w1 resp2 w2,
    post_menu req env1 w = (Returned resp1, w1)
    ∧ post_menu req env2 w1 = (Returned resp2, w2)
    ∧ status resp1 = 201 ∧ status resp2 = 201
    ∧ Menu w2 = Menu w ++ [created_row req env1; created_row req env2]
    ∧ MenuId (created_row req env1) = uuid env1
    ∧ MenuId (created_row req env2) = uuid env2.
Proof.
  intros Hv Ht1 Ht2. rewrite post_menu_commits by done.
  eexists _, _, _, _. split; [reflexivity|].
  rewrite post_menu_commits by done. split; [reflexivity|].
  cbn [status Menu]. do 2 (split; [done|]). split; [|done].
  by rewrite <- app_assoc.
Qed.

Lemma create_twice_witness :
  valid_body latte ∧ txn_error quiet = None
  ∧ ∃ resp1 w1 resp2 w2,
    post_menu (mkRequest "" latte) quiet shop = (Returned resp1, w1)
    ∧ post_menu (mkRequest "" latte) quiet w1 = (Returned resp2, w2)
    ∧ length (Menu w2) = 4%nat.
Proof.
  assert (valid_body latte) as Hv by reflexivity.
  assert (txn_error quiet = None) as Ht by reflexivity.
  split; [exact Hv|]. split; [exact Ht|].
  destruct (create_twice (mkRequest "" latte) quiet quiet shop Hv Ht Ht)
    as (resp1 & w1 & resp2 & w2 & H1 & H2 & _ & _ & Hm & _).
  exists resp1, w1, resp2, w2. split; [exact H1|]. split; [exact H2|].
  rewrite Hm. reflexivity.
Defined.

(** ** Updates and the order of the list *)

Section sort_fmap.
Variable f : Row → Row.
Hypothesis f_keeps_time : ∀ r, CreatedAt (f r) = CreatedAt r.





End sort_fmap.



(** ** Configuration *)



(** ** Requests on the same and on different ids *)

Lemma put_menu_committed_table req env w :
  valid_body (body req) → txn_error env = None →
  Menu (put_menu req env w).2 = exec_dml (commit_ts env) (update_of req) (Menu w).
Proof.
  intros Hv Ht. rewrite put_menu_commits by done. cbv zeta.
  by destruct (run_fails env).
Qed.

Lemma delete_after_update ts id d name description price available rows :
  filter (λ r, MenuId r ≠ d)
    (exec_dml ts (UpdateMenu id name description price available) rows) =
  exec_dml ts (UpdateMenu id name description price available)
    (filter (λ r, MenuId r ≠ d) rows).
Proof.
  unfold exec_dml. induction rows as [|r rows IH]; [done|].
  rewrite fmap_cons, !filter_cons.
  assert (MenuId (if decide (MenuId r = id)
                  then set_mutable name description price available r else r)
          = MenuId r) as Hkeep by (by case_decide).
  rewrite Hkeep.
  destruct (decide (MenuId r ≠ d)) as [Hne|He]; [|done].
  by rewrite fmap_cons, IH.
Qed.

(** X20. Create then delete: when the minted id is new to the table, a
    committed create followed by a committed delete of that id leaves the
    table exactly as it was before the create. *)
Theorem create_then_delete_restores (req1 req2 : Request) (env1 env2 : Env) (w : World) :
  valid_body (body req1) →
  txn_error env1 = None →
  (∀ r, r ∈ Menu w → MenuId r ≠ uuid env1) →
  params_id req2 = uuid env1 →
  txn_error env2 = None →
  Menu (delete_menu req2 env2 (post_menu req1 env1 w).2).2 = Menu w.
Proof.
  intros Hv Ht1 Hfresh Hid Ht2.
  rewrite post_menu_commits by done. rewrite delete_menu_commits by done.
  cbn [snd Menu]. rewrite Hid, filter_app, filter_cons, decide_False by (by intros []).
  rewrite filter_nil, app_nil_r. by apply filter_all.
Qed.

Lemma create_then_delete_restores_witness :
  valid_body latte ∧ txn_error (mkEnv "id-3" "" 300 None None None None) = None
  ∧ (∀ r, r ∈ Menu shop → MenuId r ≠ "id-3")
  ∧ txn_error quiet = None
  ∧ Menu (delete_menu (mkRequest "id-3" ∅) quiet
            (post_menu (mkRequest "" latte)
               (mkEnv "id-3" "" 300 None None None None) shop).2).2 = Menu shop.
Proof.
  assert (valid_body latte) as Hv by reflexivity.
  assert (txn_error (mkEnv "id-3" "" 300 None None None None) = None) as Ht1
    by reflexivity.
  assert (∀ r, r ∈ Menu shop → MenuId r ≠ "id-3") as Hfresh.
  { intros r Hin. simpl in Hin.
    apply elem_of_cons in Hin as [->|Hin]; [discriminate|].
    apply elem_of_cons in Hin as [->|Hin]; [discriminate|].
    by apply elem_of_nil in Hin. }
  assert (txn_error quiet = None) as Ht2 by reflexivity.
  split; [exact Hv|]. split; [exact Ht1|]. split; [exact Hfresh|]. split; [exact Ht2|].
  exact (create_then_delete_restores (mkRequest "" latte) (mkRequest "id-3" ∅)
           (mkEnv "id-3" "" 300 None None None None) quiet shop
           Hv Ht1 Hfresh eq_refl Ht2).
Defined.

(** X21. Committed updates of two different ids do not interfere: in
    either order they leave the same table. *)
Theorem updates_of_different_ids_commute (reqA reqB : Request) (envA envB : Env) (w : World) :
  params_id reqA ≠ params_id reqB →
  valid_body (body reqA) → valid_body (body reqB) →
  txn_error envA = None → txn_error envB = None →
  Menu (put_menu reqB envB (put_menu reqA envA w).2).2 =
  Menu (put_menu reqA envA (put_menu reqB envB w).2).2.
Proof.
  intros Hne HvA HvB HtA HtB.
  rewrite !put_menu_committed_table by done.
  unfold update_of, exec_dml. rewrite <- !list_fmap_compose.
  apply list_fmap_ext. intros i r _. simpl.
  destruct (decide (MenuId r = params_id reqA)) as [HA|HA];
    destruct (decide (MenuId r = params_id reqB)) as [HB|HB];
    repeat (case_decide; simpl in *); congruence.
Qed.

Lemma updates_of_different_ids_commute_witness :
  "id-1" ≠ "id-2" ∧ valid_body free_sample ∧ valid_body latte
  ∧ txn_error quiet = None
  ∧ Menu (put_menu (mkRequest "id-2" latte) quiet
            (put_menu (mkRequest "id-1" free_sample) quiet shop).2).2 =
    Menu (put_menu (mkRequest "id-1" free_sample) quiet
            (put_menu (mkRequest "id-2" latte) quiet shop).2).2.
Proof.
  assert ("id-1" ≠ "id-2") as Hne by discriminate.
  assert (valid_body free_sample) as HvA by reflexivity.
  assert (valid_body latte) as HvB by reflexivity.
  assert (txn_error quiet = None) as Ht by reflexivity.
  split; [exact Hne|]. split; [exact HvA|]. split; [exact HvB|]. split; [exact Ht|].
  exact (updates_of_different_ids_commute (mkRequest "id-1" free_sample)
           (mkRequest "id-2" latte) quiet quiet shop Hne HvA HvB Ht Ht).
Defined.

(** X22. A committed update followed by a committed delete leaves the
    table that the delete followed by the update leaves; when both name
    the same id, that is the table the delete alone leaves. *)
Theorem update_and_delete_commute (req_u req_d : Request) (env_u env_d : Env) (w : World) :
  valid_body (body req_u) →
  txn_error env_u = None → txn_error env_d = None →
  Menu (delete_menu req_d env_d (put_menu req_u env_u w).2).2 =
  Menu (put_menu req_u env_u (delete_menu req_d env_d w).2).2
  ∧ (params_id req_u = params_id req_d →
     Menu (delete_menu req_d env_d (put_menu req_u env_u w).2).2 =
     Menu (delete_menu req_d env_d w).2).
Proof.
  intros Hv Htu Htd.
  rewrite !delete_menu_commits by done. cbn [snd Menu].
  rewrite !put_menu_committed_table by done. cbn [Menu].
  unfold update_of. split; [apply delete_after_update|].
  intros Hid. rewrite delete_after_update. apply update_absent.
  intros r Hin. rewrite Hid. by apply list_elem_of_filter in Hin as [? _].
Qed.

Lemma update_and_delete_commute_witness :
  valid_body free_sample ∧ txn_error quiet = None
  ∧ Menu (delete_menu (mkRequest "id-1" ∅) quiet
            (put_menu (mkRequest "id-1" free_sample) quiet shop).2).2 =
    Menu (delete_menu (mkRequest "id-1" ∅) quiet shop).2.
Proof.
  assert (valid_body free_sample) as Hv by reflexivity.
  assert (txn_error quiet = None) as Ht by reflexivity.
  split; [exact Hv|]. split; [exact Ht|].
  exact (proj2 (update_and_delete_commute (mkRequest "id-1" free_sample)
                  (mkRequest "id-1" ∅) quiet quiet shop Hv Ht Ht) eq_refl).
Defined.
